(** * QFNU-CAS-token: the SSO login client of the academic-affairs system

    A shallow embedding of [ZhjwClient] (src/zhjw.py, src/example.py):
    the regular-expression searches of [_check_login_success] and
    [_parse_student_info], and the sequence of HTTP exchanges driven by
    [login], [_complete_sso_login] and [get_student_info].

    Python [str] values are lists of Unicode code points. The external
    collaborators (the credential exchange, the session carrier) are the
    operations of a class; every call to them, and every line handed to the
    logger, is an event of the trace of a run. *)

From stdpp Require Import base list strings gmap.
From Stdlib Require Import NArith ZArith Ascii Lia.

Local Open Scope N_scope.

(** ** Python strings *)

(** A Python 3 [str] is a sequence of code points. *)
Abbreviation pystr := (list N).

(** Source literals are written as Rocq strings (UTF-8 bytes) and decoded. *)
Fixpoint utf8_decode (bs : list N) : pystr :=
  match bs with
  | [] => []
  | b0 :: t0 =>
      if b0 <? 128 then b0 :: utf8_decode t0
      else
        match t0 with
        | [] => []
        | b1 :: t1 =>
            if b0 <? 224 then ((b0 - 192) * 64 + (b1 - 128)) :: utf8_decode t1
            else
              match t1 with
              | [] => []
              | b2 :: t2 =>
                  if b0 <? 240
                  then ((b0 - 224) * 4096 + (b1 - 128) * 64 + (b2 - 128))
                         :: utf8_decode t2
                  else
                    match t2 with
                    | [] => []
                    | b3 :: t3 =>
                        ((b0 - 240) * 262144 + (b1 - 128) * 4096
                         + (b2 - 128) * 64 + (b3 - 128)) :: utf8_decode t3
                    end
              end
        end
  end.

Fixpoint bytes_of_string (s : string) : list N :=
  match s with
  | EmptyString => []
  | String a s' => N_of_ascii a :: bytes_of_string s'
  end.

Definition u (s : string) : pystr := utf8_decode (bytes_of_string s).
Arguments u s%_string.

(** The double quote, which a Rocq string literal cannot hold undoubled. *)
Definition dquote : N := 34.

(** [str.isspace] on one character: the Unicode white-space code points. *)
Definition py_isspace (c : N) : bool :=
  ((9 <=? c) && (c <=? 13)) || ((28 <=? c) && (c <=? 32))
  || (c =? 133) || (c =? 160) || (c =? 5760)
  || ((8192 <=? c) && (c <=? 8202))
  || (c =? 8232) || (c =? 8233) || (c =? 8239) || (c =? 8287) || (c =? 12288).

Fixpoint drop_while {A} (f : A -> bool) (l : list A) : list A :=
  match l with
  | [] => []
  | x :: l' => if f x then drop_while f l' else l
  end.

Definition lstrip (s : pystr) : pystr := drop_while py_isspace s.
Definition rstrip (s : pystr) : pystr := reverse (drop_while py_isspace (reverse s)).
(** [s.strip()] *)
Definition strip (s : pystr) : pystr := rstrip (lstrip s).

Definition pystr_eqb (a b : pystr) : bool := bool_decide (a = b).

(** ** Python values that reach the client from its collaborators *)

Inductive pyval :=
| PyNone
| PyStr (s : pystr)
| PyBytes (b : list N).

(** [bool(v)] *)
Definition truthy (v : pyval) : bool :=
  match v with
  | PyNone => false
  | PyStr s => negb (bool_decide (s = []))
  | PyBytes b => negb (bool_decide (b = []))
  end.

(** ** Regular expressions (the fragment of [re] the source uses) *)

Inductive charset :=
| Exactly (c : N)          (* an ordinary character *)
| NoneOf (cs : list N)     (* [^...] *)
| Digit.                   (* \d *)

Inductive regex :=
| Eps
| One (cs : charset)
| Plus (cs : charset)      (* cs+ , greedy *)
| Seq (r1 r2 : regex)
| Group (r : regex).       (* ( r ) *)

(** A literal run of ordinary characters. *)
Definition lit (s : pystr) : regex :=
  foldr (fun c r => Seq (One (Exactly c)) r) Eps s.

Record Match := {
  m_string : pystr;
  m_start : nat;
  m_end : nat;
  m_groups : list (nat * nat)
}.

Definition substring (s : pystr) (a b : nat) : pystr := take (b - a) (drop a s).

(** [m.group()] *)
Definition group0 (m : Match) : pystr := substring (m_string m) (m_start m) (m_end m).

(** [m.group(1)] (the source only asks for groups that took part in the match) *)
Definition group1 (m : Match) : pystr :=
  match m_groups m with
  | (a, b) :: _ => substring (m_string m) a b
  | [] => []
  end.

Section Regex.
(** [\d] on a [str] pattern is the Unicode category Nd, which Python takes
    from its Unicode database. *)
Variable unicode_decimal : N -> bool.

Definition in_charset (cs : charset) (c : N) : bool :=
  match cs with
  | Exactly c' => c =? c'
  | NoneOf l => negb (bool_decide (c ∈ l))
  | Digit => unicode_decimal c
  end.

(** [cs+] followed by the continuation [k]: the longest run first, then
    shorter ones on backtracking. *)
Fixpoint plus_greedy {A} (cs : charset) (k : pystr -> nat -> option A)
    (s : pystr) (pos : nat) : option A :=
  match s with
  | [] => None
  | c :: s' =>
      if in_charset cs c then
        match plus_greedy cs k s' (S pos) with
        | Some r => Some r
        | None => k s' (S pos)
        end
      else None
  end.

(** Backtracking matcher, in continuation-passing style; [pos] is the index
    of the head of [s] in the searched string, [caps] the spans of the
    groups closed so far. *)
Fixpoint rmatch {A} (r : regex) (s : pystr) (pos : nat) (caps : list (nat * nat))
    (k : pystr -> nat -> list (nat * nat) -> option A) : option A :=
  match r with
  | Eps => k s pos caps
  | One cs =>
      match s with
      | c :: s' => if in_charset cs c then k s' (S pos) caps else None
      | [] => None
      end
  | Plus cs => plus_greedy cs (fun s' pos' => k s' pos' caps) s pos
  | Seq r1 r2 =>
      rmatch r1 s pos caps (fun s' pos' caps' => rmatch r2 s' pos' caps' k)
  | Group r' =>
      rmatch r' s pos caps (fun s' pos' caps' => k s' pos' (caps' ++ [(pos, pos')]))
  end.

(** A match that starts exactly at [pos]: its end and its groups. *)
Definition match_at (r : regex) (s : pystr) (pos : nat) : option (nat * list (nat * nat)) :=
  rmatch r s pos [] (fun _ e caps => Some (e, caps)).

Fixpoint search_from (r : regex) (whole s : pystr) (pos : nat) : option Match :=
  match match_at r s pos with
  | Some (e, caps) =>
      Some {| m_string := whole; m_start := pos; m_end := e; m_groups := caps |}
  | None =>
      match s with
      | [] => None
      | _ :: s' => search_from r whole s' (S pos)
      end
  end.

(** [re.search(r, s)] on a [str]: the leftmost match, or [None]. *)
Definition re_search (r : regex) (s : pystr) : option Match := search_from r s s 0%nat.
End Regex.


(** ** Exceptions, responses, and the trace of external effects *)

(** A raised exception: its class name, whether the class derives from
    [Exception] (as opposed to [BaseException] only, like
    [KeyboardInterrupt]), and [str(e)]. *)
Record pyexc := {
  exc_class : string;
  derives_Exception : bool;
  exc_str : string
}.

Inductive outcome (A : Type) :=
| Return (a : A)
| Raise (e : pyexc).
Arguments Return {A} a.
Arguments Raise {A} e.

(** What the session carrier hands back from a GET. *)
Record response := {
  status_code : Z;
  headers : list (pystr * pystr);
  text : pyval
}.

Inductive level := DEBUG | INFO | ERROR.

(** The pieces of an f-string handed to the logger. *)
Inductive frag :=
| FText (s : string)                     (* literal text *)
| FVal (v : pyval)                       (* {redirect_url} *)
| FStatus (code : Z)                     (* {response.status_code} *)
| FHeaders (h : list (pystr * pystr))    (* {dict(response.headers)} *)
| FStr (s : pystr)                       (* {match.group()} *)
| FExc (e : pyexc).                      (* {e} *)

Inductive event :=
| EvHeadersUpdate (h : list (string * string))
| EvGetToken (username password redir_uri : pystr)
| EvGet (url : pyval) (allow_redirects : option bool)
| EvLog (lvl : level) (msg : list frag).

(** The collaborators of [ZhjwClient], none of which is part of the client:
    [QfnuAuthClient.get_token] (core/get_ids_token), [SessionManager]
    (utils/session_manager) and Python's Unicode database. [World] is all
    the state they own: cookie jars, servers, the network. In src/example.py
    the same roles are played by [auth_client.get_redir_uri] and
    [auth_client.get]. *)
Class Collaborators := {
  World : Type;
  unicode_decimal : N -> bool;
  (** [auth_client.get_token(username=, password=, redir_uri=)] *)
  get_token : pystr -> pystr -> pystr -> World -> outcome pyval * World;
  (** [session.get(url, allow_redirects=)] *)
  session_get : pyval -> option bool -> World -> outcome response * World;
  (** [session.session.headers.update(...)] *)
  headers_update : list (string * string) -> World -> World;
  (** [SessionManager.__bool__] and [SessionManager.__len__], where the class
      defines them *)
  SessionManager_bool : option (World -> bool);
  SessionManager_len : option (World -> N)
}.

Definition TypeError_NoneType : pyexc :=
  {| exc_class := "TypeError"; derives_Exception := true;
     exc_str := "expected string or bytes-like object, got 'NoneType'" |}.

Definition TypeError_bytes : pyexc :=
  {| exc_class := "TypeError"; derives_Exception := true;
     exc_str := "cannot use a string pattern on a bytes-like object" |}.

Section Effects.
Context {C : Collaborators}.

Record state := {
  world : World;
  trace : list event      (* oldest first *)
}.

(** Computations of the client: state passing, with exceptions. *)
Definition M (A : Type) : Type := state -> outcome A * state.

#[export] Instance M_ret : MRet M := fun A a s => (Return a, s).

#[export] Instance M_bind : MBind M := fun A B k c s =>
  match c s with
  | (Return a, s') => k a s'
  | (Raise e, s') => (Raise e, s')
  end.

(** [try: body  except Exception as e: handler e] *)
Definition try_except_Exception {A} (body : M A) (handler : pyexc -> M A) : M A :=
  fun s =>
    match body s with
    | (Return a, s') => (Return a, s')
    | (Raise e, s') =>
        if derives_Exception e then handler e s' else (Raise e, s')
    end.

Definition emit (e : event) : M unit :=
  fun s => (Return tt, {| world := world s; trace := trace s ++ [e] |}).

(** An external call: the event is recorded, then the collaborator runs. *)
Definition extern {A} (e : event) (f : World -> outcome A * World) : M A :=
  fun s =>
    let '(r, w') := f (world s) in
    (r, {| world := w'; trace := trace s ++ [e] |}).

Definition log_info (msg : list frag) : M unit := emit (EvLog INFO msg).
Definition log_debug (msg : list frag) : M unit := emit (EvLog DEBUG msg).
Definition log_error (msg : list frag) : M unit := emit (EvLog ERROR msg).

(** [re.search(pattern, string)] with a [str] pattern: anything but a [str]
    subject is a [TypeError]. *)
Definition py_re_search (pattern : regex) (subject : pyval) : M (option Match) :=
  fun s =>
    match subject with
    | PyStr t => (Return (re_search unicode_decimal pattern t), s)
    | PyNone => (Raise TypeError_NoneType, s)
    | PyBytes _ => (Raise TypeError_bytes, s)
    end.

(** [bool(obj)] for an instance of [SessionManager]. *)
Definition SessionManager_truthy (w : World) : bool :=
  match SessionManager_bool with
  | Some f => f w
  | None =>
      match SessionManager_len with
      | Some len => negb (len w =? 0)
      | None => true
      end
  end.
End Effects.

(** ** The client (src/zhjw.py; src/example.py is the same client with
    [auth_client] doubling as the session carrier and without the
    student-info methods) *)

Inductive QfnuAuthClient := QfnuAuthClient_instance.
Inductive SessionManager := SessionManager_instance.

(** The attributes of a [ZhjwClient]. [session] is tested for truth by
    [get_student_info], so it is modelled as a reference that may be [None]. *)
Record ZhjwClient := {
  auth_client : QfnuAuthClient;
  session : option SessionManager;
  base_url : pystr
}.

Definition browser_headers : list (string * string) :=
  [ ("User-Agent", "Mozilla/5.0 (Windows NT 10.0; Win64; x64) AppleWebKit/537.36 (KHTML, like Gecko) Chrome/137.0.0.0 Safari/537.36");
    ("Accept", "text/html,application/xhtml+xml,application/xml;q=0.9,image/avif,image/webp,image/apng,*/*;q=0.8,application/signed-exchange;v=b3;q=0.7");
    ("Accept-Language", "zh-CN,zh;q=0.9,en-US;q=0.8,en;q=0.7");
    ("Accept-Encoding", "gzip, deflate");
    ("Upgrade-Insecure-Requests", "1");
    ("Cache-Control", "no-cache");
    ("Pragma", "no-cache") ]%string.

(** The five patterns of [_check_login_success]. *)
Definition TITLE : pystr := u "教学一体化服务平台".
Definition PERSONAL_CENTER : pystr := u "个人中心".
Definition MY_DESKTOP : pystr := u "我的桌面".
Definition ACADEMIC_RECORD : pystr := u "学籍成绩".

(** [<span class="glyphicon-class">] *)
Definition SPAN_OPEN : pystr :=
  u "<span class=" ++ [dquote] ++ u "glyphicon-class" ++ [dquote] ++ u ">".
Definition SPAN_CLOSE : pystr := u "</span>".
(** The characters of the class [[^<退出]]. *)
Definition NAME_EXCLUDED : list N := u "<退出".
Definition LOGOUT : pystr := u "退出".

(** [<span class="glyphicon-class">([^<退出]+)</span>] *)
Definition name_pattern : regex :=
  Seq (lit SPAN_OPEN) (Seq (Group (Plus (NoneOf NAME_EXCLUDED))) (lit SPAN_CLOSE)).

(** [var userid = '(\d+)';] *)
Definition userid_pattern : regex :=
  Seq (lit (u "var userid = '")) (Seq (Group (Plus Digit)) (lit (u "';"))).

Definition patterns : list regex :=
  [ lit TITLE; lit PERSONAL_CENTER; lit MY_DESKTOP; lit ACADEMIC_RECORD; name_pattern ].

Definition target_url : pystr :=
  u "http://ids.qfnu.edu.cn/authserver/login?service=http://zhjw.qfnu.edu.cn/sso.jsp".
Definition sso_url : pystr := u "http://zhjw.qfnu.edu.cn/sso.jsp".
Definition main_url : pystr := u "http://zhjw.qfnu.edu.cn/jsxsd/framework/xsMain.jsp".

Section Zhjw.
Context {C : Collaborators}.

Definition raise {A} (e : pyexc) : M A := fun s => (Raise e, s).

(** [self.session.get(url, ...)] *)
Definition self_session_get (self : ZhjwClient) (url : pyval)
    (allow_redirects : option bool) : M response :=
  match session self with
  | Some _ => extern (EvGet url allow_redirects) (session_get url allow_redirects)
  | None =>
      raise {| exc_class := "AttributeError"; derives_Exception := true;
               exc_str := "'NoneType' object has no attribute 'get'" |}
  end.

(** [bool(self.session)] *)
Definition self_session_truthy (self : ZhjwClient) : M bool :=
  fun s =>
    match session self with
    | Some _ => (Return (SessionManager_truthy (world s)), s)
    | None => (Return false, s)
    end.

Definition __init__ : M ZhjwClient :=
  let self := {| auth_client := QfnuAuthClient_instance;
                 session := Some SessionManager_instance;
                 base_url := u "http://zhjw.qfnu.edu.cn" |} in
  extern (EvHeadersUpdate browser_headers)
         (fun w => (Return tt, headers_update browser_headers w)) ;;
  mret self.

(** The [for pattern in patterns] loop of [_check_login_success]. *)
Fixpoint check_patterns (ps : list regex) (html_content : pyval) : M bool :=
  match ps with
  | [] =>
      log_error [FText "未找到登录成功的标识"] ;;
      mret false
  | pattern :: ps' =>
      m ← py_re_search pattern html_content;
      match m with
      | Some mt =>
          log_info [FText "登录验证成功，匹配到："; FStr (group0 mt)] ;;
          mret true
      | None => check_patterns ps' html_content
      end
  end.

Definition _check_login_success (self : ZhjwClient) (html_content : pyval) : M bool :=
  check_patterns patterns html_content.

Definition _complete_sso_login (self : ZhjwClient) (redirect_url : pyval) : M bool :=
  try_except_Exception
    (response ← self_session_get self redirect_url (Some true);
     log_info [FText "访问重定向URL状态码："; FStatus (status_code response)] ;;
     log_debug [FText "访问重定向URL响应头："; FHeaders (headers response)] ;;
     log_info [FText "正在访问SSO重定向URL..."] ;;
     response ← self_session_get self (PyStr sso_url) (Some true);
     log_info [FText "访问sso.jsp状态码："; FStatus (status_code response)] ;;
     log_debug [FText "访问sso.jsp响应头："; FHeaders (headers response)] ;;
     response ← self_session_get self (PyStr main_url) (Some true);
     log_info [FText "访问教务首页状态码："; FStatus (status_code response)] ;;
     log_debug [FText "访问教务首页响应头："; FHeaders (headers response)] ;;
     ok ← _check_login_success self (text response);
     if (ok : bool) then
       log_info [FText "教务系统登录成功！"] ;;
       mret true
     else
       log_error [FText "教务系统登录失败！"] ;;
       mret false)
    (fun e =>
       log_error [FText "SSO登录过程中发生错误："; FExc e] ;;
       mret false).

Definition login (self : ZhjwClient) (username password : pystr) : M bool :=
  log_info [FText "正在获取认证Token..."] ;;
  redirect_url ← extern (EvGetToken username password target_url)
                        (get_token username password target_url);
  if negb (truthy redirect_url) then
    log_error [FText "获取认证Token失败"] ;;
    mret false
  else
    log_info [FText "获取到重定向URL："; FVal redirect_url] ;;
    _complete_sso_login self redirect_url.

(** [name_match.group(1)] of a [str] subject. *)
Definition _parse_student_info (self : ZhjwClient) (html_content : pyval)
    : M (gmap string pystr) :=
  let info : gmap string pystr := ∅ in
  name_match ← py_re_search name_pattern html_content;
  let info :=
    match name_match with
    | Some m =>
        let name := strip (group1 m) in
        if truthy (PyStr name) && negb (pystr_eqb name LOGOUT)
        then <["name" := name]> info
        else info
    | None => info
    end in
  student_id_match ← py_re_search userid_pattern html_content;
  let info :=
    match student_id_match with
    | Some m => <["student_id" := group1 m]> info
    | None => info
    end in
  mret info.

Definition get_student_info (self : ZhjwClient) : M (option (gmap string pystr)) :=
  ok ← self_session_truthy self;
  if negb (ok : bool) then
    log_error [FText "请先登录"] ;;
    mret None
  else
    try_except_Exception
      (let url := base_url self ++ u "/jsxsd/framework/xsMain_new.jsp" in
       response ← self_session_get self (PyStr url) None;
       if (status_code response =? 200)%Z then
         info ← _parse_student_info self (text response);
         mret (Some info)
       else
         log_error [FText "获取学生信息失败，状态码："; FStatus (status_code response)] ;;
         mret None)
      (fun e =>
         log_error [FText "获取学生信息时发生错误："; FExc e] ;;
         mret None).
End Zhjw.

(** ** The runner ([main] of src/zhjw.py) *)

(** [os.getenv(name)] on the environment of the process. *)
Definition getenv (environ : gmap string pystr) (name : string) : pyval :=
  match environ !! name with
  | Some v => PyStr v
  | None => PyNone
  end.

(** The items of the dict that [_parse_student_info] builds, in insertion
    order; the f-string of [main] renders the dict from them. *)
Definition student_items (info : gmap string pystr) : list (pystr * pystr) :=
  match info !! "name"%string with Some v => [(u "name", v)] | None => [] end
  ++ match info !! "student_id"%string with Some v => [(u "student_id", v)] | None => [] end.

Section Runner.
Context {C : Collaborators}.

(** The two lines logged when a credential is missing. *)
Definition report_missing_credentials : M unit :=
  log_error [FText "错误：请设置环境变量 USERNAME 和 PASSWORD"] ;;
  log_error [FText "可以在 .env 文件中设置或直接设置环境变量"] ;;
  mret tt.

Definition main (environ : gmap string pystr) : M unit :=
  match getenv environ "USERNAME", getenv environ "PASSWORD" with
  | PyStr username, PyStr password =>
      if negb (truthy (PyStr username)) || negb (truthy (PyStr password)) then
        report_missing_credentials
      else
        client ← __init__;
        ok ← login client username password;
        if (ok : bool) then
          log_info [FText "登录成功！"] ;;
          student_info ← get_student_info client;
          match student_info with
          | Some info =>
              if negb (bool_decide (info = ∅)) then
                log_info [FText "学生信息："; FHeaders (student_items info)] ;;
                mret tt
              else mret tt
          | None => mret tt
          end
        else
          log_error [FText "登录失败，请检查账号密码是否正确或网络连接"] ;;
          mret tt
  | _, _ => report_missing_credentials
  end.
End Runner.

(** ** Vocabulary of the statements *)

(** [s.startswith(t)] *)
Fixpoint starts_with (t s : pystr) : bool :=
  match t, s with
  | [], _ => true
  | a :: t', b :: s' => (b =? a) && starts_with t' s'
  | _ :: _, [] => false
  end.

(** [t in s] *)
Fixpoint contains (t s : pystr) : bool :=
  starts_with t s || match s with [] => false | _ :: s' => contains t s' end.

(** The number of positions of [s] at which [t] starts. *)
Fixpoint count_starts (t s : pystr) : nat :=
  ((if starts_with t s then 1 else 0)
   + match s with [] => 0 | _ :: s' => count_starts t s' end)%nat.

(** The words a regular expression matches. *)
Fixpoint lang (ud : N -> bool) (r : regex) (w : pystr) : Prop :=
  match r with
  | Eps => w = []
  | One cs => ∃ c, w = [c] ∧ in_charset ud cs c = true
  | Plus cs => w ≠ [] ∧ Forall (fun c => in_charset ud cs c = true) w
  | Seq r1 r2 => ∃ w1 w2, w = w1 ++ w2 ∧ lang ud r1 w1 ∧ lang ud r2 w2
  | Group r' => lang ud r' w
  end.

(** The URLs of the GETs of a trace, in order. *)
Definition gets_of (t : list event) : list pyval :=
  omap (fun e => match e with EvGet url _ => Some url | _ => None end) t.

(** The three GETs of the redirect chain. *)
Definition chain (redirect_url : pyval) : list pyval :=
  [redirect_url; PyStr sso_url; PyStr main_url].

Section Runs.
Context {C : Collaborators}.

(** Whether [re.search] finds the pattern. *)
Definition found (pattern : regex) (s : pystr) : bool :=
  if re_search unicode_decimal pattern s is Some _ then true else false.

(** The GETs to [urls] are answered one after the other from world [w],
    and leave the world [w']. *)
Fixpoint answered (urls : list pyval) (rs : list response) (w w' : World) : Prop :=
  match urls, rs with
  | [], [] => w = w'
  | url :: urls', r :: rs' =>
      ∃ w1, session_get url (Some true) w = (Return r, w1) ∧ answered urls' rs' w1 w'
  | _, _ => False
  end.

(** The GET of index [k] of [urls] raises [e] and leaves the world [w'];
    the GETs before it are answered. *)
Fixpoint fails_at (k : nat) (urls : list pyval) (w : World) (e : pyexc) (w' : World)
    {struct urls} : Prop :=
  match urls with
  | [] => False
  | url :: urls' =>
      match k with
      | O => session_get url (Some true) w = (Raise e, w')
      | S k' =>
          ∃ r w1, session_get url (Some true) w = (Return r, w1) ∧ fails_at k' urls' w1 e w'
      end
  end.
End Runs.

(** The words a regular expression matches from index [pos] on, with the
    spans of the groups it closes: [caps] before the match, [caps'] after. *)
Fixpoint spans (ud : N -> bool) (r : regex) (w : pystr) (pos : nat)
    (caps caps' : list (nat * nat)) : Prop :=
  match r with
  | Eps => w = [] ∧ caps' = caps
  | One cs => (∃ c, w = [c] ∧ in_charset ud cs c = true) ∧ caps' = caps
  | Plus cs => (w ≠ [] ∧ Forall (fun c => in_charset ud cs c = true) w) ∧ caps' = caps
  | Seq r1 r2 =>
      ∃ w1 w2 caps1, w = w1 ++ w2 ∧ spans ud r1 w1 pos caps caps1
                     ∧ spans ud r2 w2 (pos + length w1) caps1 caps'
  | Group r' =>
      ∃ caps1, spans ud r' w pos caps caps1 ∧ caps' = caps1 ++ [(pos, (pos + length w)%nat)]
  end.

(** The GETs of a trace with their [allow_redirects] argument, in order. *)
Definition requests_of (t : list event) : list (pyval * option bool) :=
  omap (fun e => match e with EvGet url ar => Some (url, ar) | _ => None end) t.

(** The lines of a trace that went to the logger, in order. *)
Definition log_of (t : list event) : list (level * list frag) :=
  omap (fun e => match e with EvLog lvl msg => Some (lvl, msg) | _ => None end) t.

(** The calls of the credential exchange in a trace, in order. *)
Definition token_calls_of (t : list event) : list (pystr * pystr * pystr) :=
  omap (fun e => match e with EvGetToken a b c => Some (a, b, c) | _ => None end) t.

(** The URL of the student page. *)
Definition student_url : pystr :=
  u "http://zhjw.qfnu.edu.cn" ++ u "/jsxsd/framework/xsMain_new.jsp".

(** ** A scripted world, for concrete runs *)

Record script := {
  token_answer : outcome pyval;
  get_answers : list (outcome response)
}.

Definition ConnectionError : pyexc :=
  {| exc_class := "ConnectionError"; derives_Exception := true;
     exc_str := "connection refused" |}.

Definition ConnectTimeout : pyexc :=
  {| exc_class := "ConnectTimeout"; derives_Exception := true;
     exc_str := "connection timed out" |}.

(** [get_token] gives the scripted answer; every GET takes the next scripted
    answer, and the connection fails once the script is used up. *)
Definition scripted : Collaborators := {|
  World := script;
  unicode_decimal := fun c => (48 <=? c) && (c <=? 57);
  get_token := fun _ _ _ w => (token_answer w, w);
  session_get := fun _ _ w =>
    match get_answers w with
    | [] => (Raise ConnectionError, w)
    | r :: rs => (r, {| token_answer := token_answer w; get_answers := rs |})
    end;
  headers_update := fun _ w => w;
  SessionManager_bool := None;
  SessionManager_len := None
|}.

Definition start (w : script) : @state scripted := @Build_state scripted w [].

Definition page (code : Z) (body : pyval) : outcome response :=
  Return {| status_code := code; headers := []; text := body |}.

Definition ticket_url : pyval := PyStr (u "http://zhjw.example.edu/sso.jsp?ticket=T1").

(** The client that [__init__] builds. *)
Definition client : ZhjwClient :=
  {| auth_client := QfnuAuthClient_instance;
     session := Some SessionManager_instance;
     base_url := u "http://zhjw.qfnu.edu.cn" |}.

(** The worlds of the concrete runs below. Every one hands out a ticket URL
    except [w_rejected]. *)
Definition w_desktop : script :=
  {| token_answer := Return ticket_url;
     get_answers := [page 200 (PyStr []); page 200 (PyStr []);
                     page 200 (PyStr (u "<li>我的桌面</li>"))] |}.

Definition w_miss : script :=
  {| token_answer := Return ticket_url;
     get_answers := [page 200 (PyStr []); page 200 (PyStr []);
                     page 200 (PyStr (u "<html>login</html>"))] |}.

Definition w_rejected : script :=
  {| token_answer := Return PyNone; get_answers := [] |}.

Definition w_timeout : script :=
  {| token_answer := Return ticket_url; get_answers := [Raise ConnectTimeout] |}.

Definition w_bootstrap_down : script :=
  {| token_answer := Return ticket_url;
     get_answers := [page 200 (PyStr []); Raise ConnectionError] |}.

Definition w_error_pages : script :=
  {| token_answer := Return ticket_url;
     get_answers := [page 500 (PyStr []); page 404 (PyStr []);
                     page 200 (PyStr (u "<li>我的桌面</li>"))] |}.

Definition w_no_body : script :=
  {| token_answer := Return ticket_url;
     get_answers := [page 200 (PyStr []); page 200 (PyStr []); page 200 PyNone] |}.

(** What is left of a script once its GETs are used up. *)
Definition spent (w : script) : script :=
  {| token_answer := token_answer w; get_answers := [] |}.

(** A world in which nothing is scripted. *)
Definition idle : script := {| token_answer := Return PyNone; get_answers := [] |}.

(** [<span class="glyphicon-class">inner</span>] *)
Definition span_of (inner : pystr) : pystr := SPAN_OPEN ++ inner ++ SPAN_CLOSE.

Definition alice : pystr := u "alice".
Definition secret : pystr := u "secret".

Definition KeyboardInterrupt : pyexc :=
  {| exc_class := "KeyboardInterrupt"; derives_Exception := false; exc_str := "" |}.

Definition w_exchange_down : script :=
  {| token_answer := Raise ConnectionError; get_answers := [] |}.

Definition w_interrupted : script :=
  {| token_answer := Return ticket_url;
     get_answers := [page 200 (PyStr []); Raise KeyboardInterrupt] |}.

(** Worlds for [get_student_info]: the next GET is the student page. *)
Definition student_page : pystr :=
  span_of (u " 张三 ") ++ u "<script>var userid = '2021001';</script>".

Definition w_student : script :=
  {| token_answer := Return PyNone; get_answers := [page 200 (PyStr student_page)] |}.

Definition w_student_moved : script :=
  {| token_answer := Return PyNone; get_answers := [page 302 (PyStr student_page)] |}.

Definition w_student_no_body : script :=
  {| token_answer := Return PyNone; get_answers := [page 200 PyNone] |}.

(** A client whose [session] attribute was set to [None]. *)
Definition client_without_session : ZhjwClient :=
  {| auth_client := QfnuAuthClient_instance;
     session := None;
     base_url := u "http://zhjw.qfnu.edu.cn" |}.

(** An environment that has a user name but an empty password. *)
Definition environ_empty_password : gmap string pystr :=
  <["USERNAME"%string := alice]> (<["PASSWORD"%string := []]> ∅).

(** ** The matcher and the language of a pattern *)

Section RegexFacts.
Variable ud : N -> bool.

Lemma plus_greedy_sound {A} cs (k : pystr -> nat -> option A) s pos :
  is_Some (plus_greedy ud cs k s pos) ->
  ∃ w s', s = w ++ s' ∧ w ≠ [] ∧ Forall (fun c => in_charset ud cs c = true) w
          ∧ is_Some (k s' (pos + length w)%nat).
Proof.
  revert pos. induction s as [|c s IH]; intros pos; simpl.
  - intros [? ?]; discriminate.
  - destruct (in_charset ud cs c) eqn:Hc; [|intros [? ?]; discriminate].
    destruct (plus_greedy ud cs k s (S pos)) eqn:Hg.
    + intros _. destruct (IH (S pos)) as (w & s' & -> & Hne & Hall & Hk); [by rewrite Hg|].
      exists (c :: w), s'. repeat split; auto.
      replace (pos + length (c :: w))%nat with (S pos + length w)%nat by (simpl; lia).
      done.
    + intros Hk. exists [c], s. repeat split; auto.
      replace (pos + length [c])%nat with (S pos) by (simpl; lia). done.
Qed.

Lemma plus_greedy_complete {A} cs (k : pystr -> nat -> option A) w s' pos :
  w ≠ [] -> Forall (fun c => in_charset ud cs c = true) w ->
  is_Some (k s' (pos + length w)%nat) ->
  is_Some (plus_greedy ud cs k (w ++ s') pos).
Proof.
  revert pos. induction w as [|c w IH]; intros pos Hne Hall Hk; [done|].
  inversion Hall as [|? ? Hc Hall']; subst. simpl. rewrite Hc.
  destruct w as [|c' w].
  - simpl in *. replace (pos + 1)%nat with (S pos) in Hk by lia.
    destruct (plus_greedy ud cs k s' (S pos)); [eauto|done].
  - assert (Hs : is_Some (plus_greedy ud cs k ((c' :: w) ++ s') (S pos))).
    { apply IH; [done|done|].
      replace (S pos + length (c' :: w))%nat with (pos + length (c :: c' :: w))%nat
        by (simpl; lia). done. }
    destruct Hs as [x Hx]. rewrite Hx. eauto.
Qed.

(** A successful match consumed a word of the pattern's language and then
    ran its continuation on the rest. *)
Lemma rmatch_sound {A} r : ∀ s pos caps (k : pystr -> nat -> list (nat * nat) -> option A),
  is_Some (rmatch ud r s pos caps k) ->
  ∃ w s' caps', s = w ++ s' ∧ lang ud r w ∧ is_Some (k s' (pos + length w)%nat caps').
Proof.
  induction r as [|cs|cs|r1 IH1 r2 IH2|r IH]; intros s pos caps k; simpl.
  - intros Hk. exists [], s, caps. rewrite Nat.add_0_r. done.
  - destruct s as [|c s]; [intros [? ?]; discriminate|].
    destruct (in_charset ud cs c) eqn:Hc; [|intros [? ?]; discriminate].
    intros Hk. exists [c], s, caps. split; [done|]. split; [eauto|].
    replace (pos + length [c])%nat with (S pos) by (simpl; lia). done.
  - intros H. apply plus_greedy_sound in H as (w & s' & -> & Hne & Hall & Hk).
    exists w, s', caps. done.
  - intros H. apply IH1 in H as (w1 & s1 & caps1 & -> & Hw1 & H).
    apply IH2 in H as (w2 & s2 & caps2 & -> & Hw2 & H).
    exists (w1 ++ w2), s2, caps2. rewrite <- (assoc app). split; [done|].
    split; [by exists w1, w2|].
    rewrite length_app, Nat.add_assoc. done.
  - intros H. apply IH in H as (w & s' & caps' & -> & Hw & H). eauto 10.
Qed.

(** Whenever the subject starts with a word of the language after which the
    continuation succeeds, the match succeeds. *)
Lemma rmatch_complete {A} r : ∀ w s' pos caps (k : pystr -> nat -> list (nat * nat) -> option A),
  lang ud r w ->
  (∀ caps', is_Some (k s' (pos + length w)%nat caps')) ->
  is_Some (rmatch ud r (w ++ s') pos caps k).
Proof.
  induction r as [|cs|cs|r1 IH1 r2 IH2|r IH]; intros w s' pos caps k; simpl.
  - intros -> Hk. specialize (Hk caps). simpl in Hk. rewrite Nat.add_0_r in Hk. done.
  - intros (c & -> & Hc) Hk. simpl. rewrite Hc. specialize (Hk caps).
    simpl in Hk. replace (pos + 1)%nat with (S pos) in Hk by lia. done.
  - intros [Hne Hall] Hk. apply plus_greedy_complete; auto.
  - intros (w1 & w2 & -> & Hw1 & Hw2) Hk. rewrite <- (assoc app).
    apply IH1; [done|]. intros caps1. apply IH2; [done|]. intros caps2.
    specialize (Hk caps2). rewrite length_app, Nat.add_assoc in Hk. done.
  - intros Hw Hk. apply IH; [done|]. intros caps1. apply Hk.
Qed.

Lemma match_at_lang r s pos :
  is_Some (match_at ud r s pos) <-> ∃ w s', s = w ++ s' ∧ lang ud r w.
Proof.
  unfold match_at. split.
  - intros H. apply rmatch_sound in H as (w & s' & _ & -> & Hw & _). eauto.
  - intros (w & s' & -> & Hw). apply rmatch_complete; [done|]. intros; eauto.
Qed.

Lemma search_from_lang r whole s pos :
  is_Some (search_from ud r whole s pos) <->
  ∃ pre w post, s = pre ++ w ++ post ∧ lang ud r w.
Proof.
  revert pos. induction s as [|c s IH]; intros pos; simpl.
  - destruct (match_at ud r [] pos) as [[e caps]|] eqn:Hm.
    + split; [intros _|eauto].
      destruct (proj1 (match_at_lang r [] pos)) as (w & s' & Hs & Hw); [by rewrite Hm|].
      exists [], w, s'. done.
    + split; [intros [? ?]; discriminate|].
      intros (pre & w & post & Hs & Hw).
      destruct pre; [|discriminate]. simpl in Hs.
      assert (is_Some (match_at ud r [] pos)) as [? ?]; [|congruence].
      apply match_at_lang. eauto.
  - destruct (match_at ud r (c :: s) pos) as [[e caps]|] eqn:Hm.
    + split; [intros _|eauto].
      destruct (proj1 (match_at_lang r (c :: s) pos)) as (w & s' & Hs & Hw); [by rewrite Hm|].
      exists [], w, s'. done.
    + rewrite IH. split.
      * intros (pre & w & post & -> & Hw). exists (c :: pre), w, post. done.
      * intros (pre & w & post & Hs & Hw). destruct pre as [|c' pre].
        -- assert (is_Some (match_at ud r (c :: s) pos)) as [? ?]; [|congruence].
           apply match_at_lang. by exists w, post.
        -- injection Hs as -> ->. eauto.
Qed.

(** [re.search] finds a match exactly when some substring is in the language. *)
Lemma re_search_lang r s :
  is_Some (re_search ud r s) <-> ∃ pre w post, s = pre ++ w ++ post ∧ lang ud r w.
Proof. apply search_from_lang. Qed.

Lemma lang_lit t w : lang ud (lit t) w <-> w = t.
Proof.
  revert w. induction t as [|a t IH]; intros w; simpl; [done|].
  split.
  - intros (w1 & w2 & -> & (c & -> & Hc) & Hw2). apply IH in Hw2 as ->.
    apply N.eqb_eq in Hc as ->. done.
  - intros ->. exists [a], t. split; [done|]. split; [|by apply IH].
    exists a. split; [done|]. apply N.eqb_refl.
Qed.

Lemma lang_name_pattern w :
  lang ud name_pattern w <->
  ∃ run, w = SPAN_OPEN ++ run ++ SPAN_CLOSE ∧ run ≠ []
         ∧ Forall (fun c => c ∉ NAME_EXCLUDED) run.
Proof.
  unfold name_pattern. cbn [lang]. split.
  - intros (w1 & w' & -> & Hw1 & w2 & w3 & -> & [Hne Hall] & Hw3).
    apply lang_lit in Hw1 as ->. apply lang_lit in Hw3 as ->.
    exists w2. split; [done|]. split; [done|].
    eapply Forall_impl; [exact Hall|]. simpl. intros c Hc.
    apply negb_true_iff, bool_decide_eq_false in Hc. done.
  - intros (run & -> & Hne & Hall). exists SPAN_OPEN, (run ++ SPAN_CLOSE).
    split; [done|]. split; [by apply lang_lit|].
    exists run, SPAN_CLOSE. split; [done|]. split; [|by apply lang_lit].
    split; [done|]. eapply Forall_impl; [exact Hall|]. simpl. intros c Hc.
    apply negb_true_iff, bool_decide_eq_false. done.
Qed.
End RegexFacts.

(** ** Substrings *)

Lemma starts_with_spec t s : starts_with t s = true <-> ∃ q, s = t ++ q.
Proof.
  revert s. induction t as [|a t IH]; intros s; simpl.
  - split; eauto.
  - destruct s as [|b s].
    + split; [discriminate|]. intros [q Hq]. discriminate.
    + rewrite andb_true_iff, N.eqb_eq, IH. split.
      * intros [-> [q ->]]. eauto.
      * intros [q Hq]. injection Hq as -> ->. eauto.
Qed.

Lemma contains_spec t s : contains t s = true <-> ∃ pre post, s = pre ++ t ++ post.
Proof.
  induction s as [|b s IH]; simpl.
  - rewrite orb_false_r, starts_with_spec. split.
    + intros [q ->]. by exists [], q.
    + intros (pre & post & Hs). destruct pre; [|discriminate]. eauto.
  - rewrite orb_true_iff, IH, starts_with_spec. split.
    + intros [[q ->]|(pre & post & ->)]; [by exists [], q|by exists (b :: pre), post].
    + intros (pre & post & Hs). destruct pre as [|b' pre]; [left; eauto|].
      injection Hs as -> ->. right; eauto.
Qed.

Lemma count_starts_occurrence t pre post : (1 <= count_starts t (pre ++ t ++ post))%nat.
Proof.
  induction pre as [|b pre IH]; simpl.
  - assert (starts_with t (t ++ post) = true) as Hs by (apply starts_with_spec; eauto).
    destruct (t ++ post); simpl in *; rewrite Hs; lia.
  - lia.
Qed.

Lemma count_starts_cons t b s :
  count_starts t (b :: s)
  = ((if starts_with t (b :: s) then 1 else 0) + count_starts t s)%nat.
Proof. reflexivity. Qed.

Lemma count_starts_not_later t b p q :
  starts_with t (b :: p ++ t ++ q) = true -> count_starts t (b :: p ++ t ++ q) <> 1%nat.
Proof.
  intros Hs. rewrite count_starts_cons, Hs.
  pose proof (count_starts_occurrence t p q). lia.
Qed.

(** A string that occurs once occurs at one place. *)
Lemma count_starts_unique t s p1 q1 p2 q2 :
  count_starts t s = 1%nat -> s = p1 ++ t ++ q1 -> s = p2 ++ t ++ q2 -> p1 = p2.
Proof.
  revert s p2. induction p1 as [|a p1 IH]; intros s p2 Hc H1 H2.
  - destruct p2 as [|b p2]; [done|]. exfalso.
    assert (starts_with t s = true) as Hs by (apply starts_with_spec; eauto).
    rewrite H2 in Hc, Hs. by apply count_starts_not_later in Hs.
  - destruct p2 as [|b p2].
    + exfalso.
      assert (starts_with t s = true) as Hs by (apply starts_with_spec; eauto).
      rewrite H1 in Hc, Hs. by apply count_starts_not_later in Hs.
    + subst s. injection H2 as -> H2. f_equal.
      apply (IH (p1 ++ t ++ q1)); [|done|done].
      change ((b :: p1) ++ t ++ q1) with (b :: p1 ++ t ++ q1) in Hc.
      rewrite count_starts_cons in Hc.
      pose proof (count_starts_occurrence t p1 q1).
      destruct (starts_with t (b :: p1 ++ t ++ q1)); lia.
Qed.

Lemma re_search_lit ud t s : is_Some (re_search ud (lit t) s) <-> contains t s = true.
Proof.
  rewrite re_search_lang, contains_spec. split.
  - intros (pre & w & post & -> & Hw). apply lang_lit in Hw as ->. eauto.
  - intros (pre & post & ->). exists pre, t, post. split; [done|]. by apply lang_lit.
Qed.

(** ** The classifier on a [str] body *)

Section Classifier.
Context {C : Collaborators}.

Lemma found_true pattern s : found pattern s = true <-> is_Some (re_search unicode_decimal pattern s).
Proof.
  unfold found. destruct (re_search _ _ _); split; eauto; [discriminate|].
  intros [? ?]; discriminate.
Qed.

Lemma check_patterns_str ps s st :
  (check_patterns ps (PyStr s) st).1 = Return (existsb (fun p => found p s) ps).
Proof.
  induction ps as [|p ps IH]; [done|].
  simpl. unfold mbind, M_bind, found. simpl.
  destruct (re_search unicode_decimal p s); [done|]. apply IH.
Qed.
End Classifier.

Section ClassifierClaims.
Context {C : Collaborators}.

Lemma found_lit t s : found (lit t) s = contains t s.
Proof.
  apply eq_true_iff_eq. rewrite found_true. apply re_search_lit.
Qed.

Lemma found_name_pattern s :
  found name_pattern s = true <->
  ∃ pre run post, s = pre ++ SPAN_OPEN ++ run ++ SPAN_CLOSE ++ post ∧ run ≠ []
                  ∧ Forall (fun c => c ∉ NAME_EXCLUDED) run.
Proof.
  rewrite found_true, re_search_lang. split.
  - intros (pre & w & post & -> & Hw). apply lang_name_pattern in Hw as (run & -> & Hne & Hall).
    exists pre, run, post. by rewrite <- !(assoc app).
  - intros (pre & run & post & -> & Hne & Hall).
    exists pre, (SPAN_OPEN ++ run ++ SPAN_CLOSE), post. rewrite <- !(assoc app).
    split; [done|]. apply lang_name_pattern. eauto.
Qed.

(** The classifier on a [str] is the disjunction of its five searches. *)
Lemma _check_login_success_str self s st :
  (_check_login_success self (PyStr s) st).1
  = Return (contains TITLE s || contains PERSONAL_CENTER s || contains MY_DESKTOP s
            || contains ACADEMIC_RECORD s || found name_pattern s).
Proof.
  unfold _check_login_success. rewrite check_patterns_str. unfold patterns.
  cbn [existsb]. rewrite !found_lit, orb_false_r, !orb_assoc. done.
Qed.

(** C8: every body that contains the platform title is classified as
    logged in, whatever else it contains. *)
Theorem title_alone_suffices self (pre post : pystr) st :
  (_check_login_success self (PyStr (pre ++ TITLE ++ post)) st).1 = Return true.
Proof.
  rewrite _check_login_success_str.
  assert (contains TITLE (pre ++ TITLE ++ post) = true) as ->; [|done].
  apply contains_spec. eauto.
Qed.

(** C9: a body whose only glyphicon-class span is the logout control, and
    which has none of the four literal markers, is classified as not
    logged in. *)
Theorem logout_control_rejected self (body pre post : pystr) st :
  body = pre ++ SPAN_OPEN ++ LOGOUT ++ SPAN_CLOSE ++ post ->
  contains TITLE body = false ->
  contains PERSONAL_CENTER body = false ->
  contains MY_DESKTOP body = false ->
  contains ACADEMIC_RECORD body = false ->
  count_starts SPAN_OPEN body = 1%nat ->
  (_check_login_success self (PyStr body) st).1 = Return false.
Proof.
  intros Hbody H1 H2 H3 H4 Hone.
  rewrite _check_login_success_str, H1, H2, H3, H4. simpl. f_equal.
  apply not_true_is_false. intros Hf.
  apply found_name_pattern in Hf as (pre' & run & post' & Hbody' & Hne & Hall).
  assert (pre' = pre) as -> by (eapply count_starts_unique; eauto).
  rewrite Hbody in Hbody'. apply app_inv_head in Hbody'. apply app_inv_head in Hbody'.
  change LOGOUT with [36864; 20986] in Hbody'.
  destruct run as [|c run]; [done|]. injection Hbody' as <- _.
  inversion Hall as [|? ? Hc _]; subst. apply Hc.
  change NAME_EXCLUDED with [60; 36864; 20986]. set_solver.
Qed.
End ClassifierClaims.

(** ** What [strip] leaves empty *)

Lemma drop_while_nil {A} (f : A -> bool) l :
  drop_while f l = [] -> Forall (fun x => f x = true) l.
Proof.
  induction l as [|x l IH]; simpl; [constructor|].
  destruct (f x) eqn:Hx; [|discriminate]. intros H. constructor; auto.
Qed.

Lemma strip_nil ws : strip ws = [] -> Forall (fun c => py_isspace c = true) ws.
Proof.
  unfold strip, rstrip, lstrip. intros H.
  apply (f_equal reverse) in H. rewrite reverse_involutive in H. simpl in H.
  apply drop_while_nil in H. rewrite Forall_reverse in H.
  remember (drop_while py_isspace ws) as l eqn:Hl.
  destruct l as [|c l].
  - apply drop_while_nil. done.
  - exfalso. inversion H as [|? ? Hc _]; subst.
    clear H. induction ws as [|x ws IH]; simpl in Hl; [discriminate|].
    destruct (py_isspace x) eqn:Hx; [auto|]. injection Hl as -> _. congruence.
Qed.

Lemma isspace_not_excluded c : py_isspace c = true -> c ∉ NAME_EXCLUDED.
Proof.
  change NAME_EXCLUDED with [60; 36864; 20986]. intros Hc Hin.
  repeat (apply elem_of_cons in Hin as [->|Hin]; [by vm_compute in Hc|]).
  by apply not_elem_of_nil in Hin.
Qed.

Section NamePattern.
Context {C : Collaborators}.

(** A span whose text is a non-empty run free of [<], [退] and [出] is
    accepted, wherever it stands in the body. *)
Lemma name_span_accepted self (pre run post : pystr) st :
  run ≠ [] -> Forall (fun c => c ∉ NAME_EXCLUDED) run ->
  (_check_login_success self (PyStr (pre ++ SPAN_OPEN ++ run ++ SPAN_CLOSE ++ post)) st).1
  = Return true.
Proof.
  intros Hne Hall. rewrite _check_login_success_str.
  assert (found name_pattern (pre ++ SPAN_OPEN ++ run ++ SPAN_CLOSE ++ post) = true) as ->.
  { apply found_name_pattern. eauto 10. }
  by rewrite orb_true_r.
Qed.

(** C2, at a display name that is not the logout label but holds one of its
    characters: the span is present, its text is trimmed, non-empty and
    different from the logout label, and the classifier rejects the body. *)
Theorem name_sharing_a_logout_character_rejected self st :
  let inner := u "李出新" in
  strip inner = inner ∧ inner ≠ [] ∧ inner ≠ LOGOUT
  ∧ (_check_login_success self (PyStr (span_of inner)) st).1 = Return false.
Proof.
  cbv zeta. split; [by vm_compute|]. split; [by vm_compute|]. split; [by vm_compute|].
  rewrite _check_login_success_str. unfold found. by vm_compute.
Qed.

(** The classifier does not trim the text of the span. A span of white
    space only is accepted; an empty span, alone and without another marker,
    is not. *)
Theorem classifier_does_not_trim self (pre ws post : pystr) st :
  strip ws = [] ->
  let body := pre ++ SPAN_OPEN ++ ws ++ SPAN_CLOSE ++ post in
  (ws ≠ [] -> (_check_login_success self (PyStr body) st).1 = Return true)
  ∧ (ws = [] ->
     contains TITLE body = false ->
     contains PERSONAL_CENTER body = false ->
     contains MY_DESKTOP body = false ->
     contains ACADEMIC_RECORD body = false ->
     count_starts SPAN_OPEN body = 1%nat ->
     (_check_login_success self (PyStr body) st).1 = Return false).
Proof.
  intros Hstrip body. split.
  - intros Hne. apply name_span_accepted; [done|].
    eapply Forall_impl; [by apply strip_nil|]. apply isspace_not_excluded.
  - intros -> H1 H2 H3 H4 Hone.
    rewrite _check_login_success_str, H1, H2, H3, H4. simpl. f_equal.
    apply not_true_is_false. intros Hf.
    apply found_name_pattern in Hf as (pre' & run & post' & Hbody' & Hne & Hall).
    assert (pre' = pre) as -> by (eapply count_starts_unique; eauto).
    unfold body in Hbody'. apply app_inv_head in Hbody'. apply app_inv_head in Hbody'.
    change SPAN_CLOSE with (60 :: u "/span>") in Hbody' at 1.
    destruct run as [|c run]; [done|]. cbn [app] in Hbody'. injection Hbody' as <- _.
    inversion Hall as [|? ? Hc _]; subst. apply Hc.
    change NAME_EXCLUDED with [60; 36864; 20986]. set_solver.
Qed.
End NamePattern.

(** ** The orchestrator *)

Arguments _check_login_success : simpl never.
Arguments _parse_student_info : simpl never.
Arguments u : simpl never.
Arguments sso_url : simpl never.
Arguments main_url : simpl never.
Arguments target_url : simpl never.

Ltac unfold_client :=
  unfold login, _complete_sso_login, get_student_info, try_except_Exception,
    self_session_get, self_session_truthy, extern, raise, log_info, log_debug,
    log_error, emit, mbind, M_bind, mret, M_ret.

Section Orchestrator.
Context {C : Collaborators}.

(** C4: when the credential exchange hands back nothing, [login] returns
    [False] at once; the only events of the run are two log lines around
    the call of [get_token], and no GET is among them. *)
Theorem no_ticket_no_request self (username password : pystr) st redirect_url w' :
  get_token username password target_url (world st) = (Return redirect_url, w') ->
  truthy redirect_url = false ->
  ∃ evs,
    login self username password st
    = (Return false, {| world := w'; trace := trace st ++ evs |})
    ∧ evs = [EvLog INFO [FText "正在获取认证Token..."];
             EvGetToken username password target_url;
             EvLog ERROR [FText "获取认证Token失败"]]
    ∧ gets_of evs = [].
Proof.
  intros Htoken Hfalsy. eexists. split; [|split; [reflexivity|reflexivity]].
  unfold_client. simpl. rewrite Htoken. simpl. rewrite Hfalsy. simpl.
  by rewrite <- !(assoc app).
Qed.

Lemma gets_of_app t1 t2 : gets_of (t1 ++ t2) = gets_of t1 ++ gets_of t2.
Proof. apply omap_app. Qed.

(** The classifier only writes to the log, and its verdict depends on the
    body alone. *)
Lemma check_patterns_effect ps v s :
  ∃ evs, (check_patterns ps v s).2 = {| world := world s; trace := trace s ++ evs |}
         ∧ gets_of evs = []
         ∧ ∀ s', (check_patterns ps v s').1 = (check_patterns ps v s).1.
Proof.
  induction ps as [|p ps IH].
  - exists [EvLog ERROR [FText "未找到登录成功的标识"]]. done.
  - destruct v as [|t|b].
    + exists []. simpl. rewrite app_nil_r. by destruct s.
    + simpl. unfold mbind, M_bind. simpl.
      destruct (re_search unicode_decimal p t) as [m|].
      * eexists. split; [reflexivity|]. done.
      * apply IH.
    + exists []. simpl. rewrite app_nil_r. by destruct s.
Qed.

Lemma classifier_verdict self v s s' :
  (_check_login_success self v s').1 = (_check_login_success self v s).1.
Proof. destruct (check_patterns_effect patterns v s) as (? & _ & _ & H). apply H. Qed.

(** C1: [login] returns [True] only after the credential exchange gave a
    ticket URL, the three GETs of the chain were answered, and the
    classifier accepted the body of the last one; and whenever the chain
    is answered and the classifier rejects that body, [login] does not
    return [True]. *)
Theorem authenticated_only_if_classified self (username password : pystr) st b st' :
  login self username password st = (Return b, st') ->
  (b = true ->
   ∃ redirect_url w0 r1 r2 r3 w3,
     get_token username password target_url (world st) = (Return redirect_url, w0)
     ∧ truthy redirect_url = true
     ∧ answered (chain redirect_url) [r1; r2; r3] w0 w3
     ∧ ∀ s, (_check_login_success self (text r3) s).1 = Return true)
  ∧ (∀ redirect_url w0 r1 r2 r3 w3 s,
       get_token username password target_url (world st) = (Return redirect_url, w0) ->
       answered (chain redirect_url) [r1; r2; r3] w0 w3 ->
       (_check_login_success self (text r3) s).1 = Return false ->
       b = false).
Proof.
  intros Hrun. split.
  - intros ->. revert Hrun. unfold_client. simpl.
    destruct (get_token username password target_url (world st)) as [[redirect_url|e] w0] eqn:Htoken;
      [|discriminate].
    simpl. destruct (truthy redirect_url) eqn:Htruthy; [|discriminate]. simpl.
    destruct (session self) as [sm|]; [|discriminate]. simpl.
    destruct (session_get redirect_url (Some true) w0) as [[r1|e] w1] eqn:H1; simpl;
      [|destruct (derives_Exception e); discriminate].
    destruct (session_get (PyStr sso_url) (Some true) w1) as [[r2|e] w2] eqn:H2; simpl;
      [|destruct (derives_Exception e); discriminate].
    destruct (session_get (PyStr main_url) (Some true) w2) as [[r3|e] w3] eqn:H3; simpl;
      [|destruct (derives_Exception e); discriminate].
    match goal with |- context [_check_login_success self (text r3) ?s] =>
      set (s0 := s) end.
    destruct (_check_login_success self (text r3) s0) as [[[|]|e] s3] eqn:Hc.
    all: simpl.
    2: discriminate.
    2: destruct (derives_Exception e); discriminate.
    intros _. exists redirect_url, w0, r1, r2, r3, w3.
    split; [reflexivity|]. split; [exact Htruthy|].
    split; [exists w1; split; [exact H1|]; exists w2; split; [exact H2|]; exists w3; split; [exact H3|reflexivity]|].
    intros s. rewrite (classifier_verdict self (text r3) s0 s). rewrite Hc. reflexivity.
  - intros redirect_url w0 r1 r2 r3 w3 s Htoken (w1 & H1 & w2 & H2 & w3' & H3 & <-) Hc.
    revert Hrun. unfold_client. simpl. rewrite Htoken. simpl.
    destruct (truthy redirect_url); simpl; [|by intros [= <- _]].
    destruct (session self) as [sm|]; simpl; [|by intros [= <- _]].
    rewrite H1. simpl. rewrite H2. simpl. rewrite H3. simpl.
    match goal with |- context [_check_login_success self (text r3) ?s0] =>
      pose proof (classifier_verdict self (text r3) s s0) as Hv;
      destruct (_check_login_success self (text r3) s0) as [o s3] end.
    simpl in Hv. rewrite Hc in Hv. subst o. simpl. by intros [= <- _].
Qed.

(** C5, as the code has it: when a GET of the chain raises an exception
    derived from [Exception], [login] returns [False], the value it also
    returns when the page is not recognised; the exception is written to
    the error log only, and no GET follows the one that failed. *)
Theorem transport_failure_returns_false self (username password : pystr) st
    redirect_url w0 k e w' :
  is_Some (session self) ->
  get_token username password target_url (world st) = (Return redirect_url, w0) ->
  truthy redirect_url = true ->
  derives_Exception e = true ->
  fails_at k (chain redirect_url) w0 e w' ->
  ∃ evs,
    login self username password st
    = (Return false, {| world := w'; trace := trace st ++ evs |})
    ∧ last evs = Some (EvLog ERROR [FText "SSO登录过程中发生错误："; FExc e])
    ∧ gets_of evs = take (S k) (chain redirect_url).
Proof.
  intros [sm Hsm] Htoken Htruthy He Hfail.
  destruct k as [|[|[|k]]]; simpl in Hfail.
  - eexists. split; [|split].
    + unfold_client. simpl. rewrite Htoken. simpl. rewrite Htruthy, Hsm. simpl.
      rewrite Hfail. simpl. rewrite He. simpl. rewrite <- !(assoc app). reflexivity.
    + reflexivity.
    + reflexivity.
  - destruct Hfail as (r1 & w1 & H1 & H2).
    eexists. split; [|split].
    + unfold_client. simpl. rewrite Htoken. simpl. rewrite Htruthy, Hsm. simpl.
      rewrite H1. simpl. rewrite H2. simpl. rewrite He. simpl.
      rewrite <- !(assoc app). reflexivity.
    + reflexivity.
    + reflexivity.
  - destruct Hfail as (r1 & w1 & H1 & r2 & w2 & H2 & H3).
    eexists. split; [|split].
    + unfold_client. simpl. rewrite Htoken. simpl. rewrite Htruthy, Hsm. simpl.
      rewrite H1. simpl. rewrite H2. simpl. rewrite H3. simpl. rewrite He. simpl.
      rewrite <- !(assoc app). reflexivity.
    + reflexivity.
    + reflexivity.
  - destruct Hfail as (r1 & w1 & H1 & r2 & w2 & H2 & r3 & w3 & H3 & []).
Qed.

(** Whatever the classifier raises is a [TypeError] of [re.search]. *)
Lemma check_patterns_raises ps v s e :
  (check_patterns ps v s).1 = Raise e -> derives_Exception e = true.
Proof.
  revert s. induction ps as [|p ps IH]; intros s; [discriminate|].
  destruct v as [|t|b]; simpl.
  - by intros [= <-].
  - unfold mbind, M_bind. simpl. destruct (re_search unicode_decimal p t); [discriminate|].
    apply IH.
  - by intros [= <-].
Qed.

(** C6, as the code has it: the classifier runs inside the [try] block, so
    an exception it raises on the body of the landing page is caught like
    a transport failure: [login] returns [False] and logs the exception. *)
Theorem classifier_exception_is_caught self (username password : pystr) st
    redirect_url w0 r1 r2 r3 w3 s e :
  is_Some (session self) ->
  get_token username password target_url (world st) = (Return redirect_url, w0) ->
  truthy redirect_url = true ->
  answered (chain redirect_url) [r1; r2; r3] w0 w3 ->
  (_check_login_success self (text r3) s).1 = Raise e ->
  ∃ evs,
    login self username password st
    = (Return false, {| world := w3; trace := trace st ++ evs |})
    ∧ last evs = Some (EvLog ERROR [FText "SSO登录过程中发生错误："; FExc e])
    ∧ gets_of evs = chain redirect_url.
Proof.
  intros [sm Hsm] Htoken Htruthy (w1 & H1 & w2 & H2 & w3' & H3 & <-) Hc.
  pose proof (check_patterns_raises _ _ _ _ Hc) as He.
  unfold_client. simpl. rewrite Htoken. simpl. rewrite Htruthy, Hsm. simpl.
  rewrite H1. simpl. rewrite H2. simpl. rewrite H3. simpl.
  match goal with |- context [_check_login_success self (text r3) ?s0] =>
    pose proof (classifier_verdict self (text r3) s s0) as Hv;
    destruct (check_patterns_effect patterns (text r3) s0) as (evs & Hs & Hg & _);
    change (check_patterns patterns (text r3) s0)
      with (_check_login_success self (text r3) s0) in Hs;
    destruct (_check_login_success self (text r3) s0) as [o s3] end.
  simpl in Hv, Hs. rewrite Hc in Hv. subst o s3. simpl. rewrite He. simpl.
  eexists. split; [|split].
  - rewrite <- !(assoc app). reflexivity.
  - rewrite !(assoc app). apply last_snoc.
  - rewrite !gets_of_app, Hg. reflexivity.
Qed.

(** C7, as the code has it: once the ticket GET is answered, the bootstrap
    GET follows whatever the status code; and once the bootstrap GET is
    answered too, the landing-page GET follows whatever the status code.
    The GETs of the run are then exactly the chain, in order. *)
Theorem chain_ignores_status_codes self (username password : pystr) st
    redirect_url w0 r1 w1 :
  is_Some (session self) ->
  get_token username password target_url (world st) = (Return redirect_url, w0) ->
  truthy redirect_url = true ->
  session_get redirect_url (Some true) w0 = (Return r1, w1) ->
  ∃ o st' evs,
    login self username password st = (o, st')
    ∧ trace st' = trace st ++ evs
    ∧ take 2 (gets_of evs) = [redirect_url; PyStr sso_url]
    ∧ ∀ r2 w2,
        session_get (PyStr sso_url) (Some true) w1 = (Return r2, w2) ->
        gets_of evs = chain redirect_url.
Proof.
  intros [sm Hsm] Htoken Htruthy H1.
  unfold_client. simpl. rewrite Htoken. simpl. rewrite Htruthy, Hsm. simpl.
  rewrite H1. simpl.
  destruct (session_get (PyStr sso_url) (Some true) w1) as [[r2|e] w2] eqn:H2; simpl.
  - destruct (session_get (PyStr main_url) (Some true) w2) as [[r3|e] w3] eqn:H3; simpl.
    + match goal with |- context [_check_login_success self (text r3) ?s0] =>
        destruct (check_patterns_effect patterns (text r3) s0) as (evs & Hs & Hg & _);
        change (check_patterns patterns (text r3) s0)
          with (_check_login_success self (text r3) s0) in Hs;
        destruct (_check_login_success self (text r3) s0) as [o s3] end.
      simpl in Hs. subst s3.
      destruct o as [[|]|e]; simpl; [| |destruct (derives_Exception e); simpl].
      all: eexists _, _, _; split; [reflexivity|]; simpl; rewrite <- !(assoc app).
      all: split; [reflexivity|].
      all: rewrite !gets_of_app, Hg; split; [reflexivity|]; intros; reflexivity.
    + destruct (derives_Exception e); simpl.
      all: eexists _, _, _; split; [reflexivity|]; simpl; rewrite <- !(assoc app).
      all: split; [reflexivity|]; split; [reflexivity|]; intros; reflexivity.
  - destruct (derives_Exception e); simpl.
    all: eexists _, _, _; split; [reflexivity|]; simpl; rewrite <- !(assoc app).
    all: split; [reflexivity|]; split; [reflexivity|]; intros; discriminate.
Qed.

(** Parsing the student page touches neither the world nor the trace. *)
Lemma _parse_student_info_state self v s : (_parse_student_info self v s).2 = s.
Proof.
  unfold _parse_student_info, py_re_search, mbind, M_bind, mret, M_ret.
  destruct v; reflexivity.
Qed.

(** When [SessionManager] defines neither [__bool__] nor [__len__],
    [get_student_info] on a client built by [__init__] does not take the
    [请先登录] branch, logged in or not: the first thing it does is the GET
    of the student page, and it does not log that message. *)
Theorem login_guard_unreachable self st0 st1 st :
  SessionManager_bool = None ->
  SessionManager_len = None ->
  __init__ st0 = (Return self, st1) ->
  ∃ o st' evs,
    get_student_info self st = (o, st')
    ∧ trace st'
      = trace st
        ++ EvGet (PyStr (u "http://zhjw.qfnu.edu.cn" ++ u "/jsxsd/framework/xsMain_new.jsp")) None
        :: evs
    ∧ EvLog ERROR [FText "请先登录"] ∉ evs.
Proof.
  intros Hbool Hlen Hinit. injection Hinit as <- _.
  unfold_client. unfold SessionManager_truthy. rewrite Hbool, Hlen. simpl.
  match goal with |- context [session_get ?url None (world st)] =>
    destruct (session_get url None (world st)) as [[r|e] w1] eqn:Hget end; simpl.
  - destruct (status_code r =? 200)%Z; simpl.
    + match goal with |- context [_parse_student_info ?c (text r) ?s0] =>
        pose proof (_parse_student_info_state c (text r) s0) as Hs;
        destruct (_parse_student_info c (text r) s0) as [[info|e] s1] end.
      all: simpl in Hs; subst s1; simpl; try destruct (derives_Exception e); simpl.
      all: eexists _, _, _; split; [reflexivity|]; simpl; rewrite <- ?(assoc app).
      all: split; [reflexivity|].
      all: try apply not_elem_of_nil.
      all: intros Hin; apply list_elem_of_singleton in Hin; discriminate.
    + eexists _, _, _; split; [reflexivity|]; simpl; rewrite <- ?(assoc app).
      split; [reflexivity|].
      intros Hin; apply list_elem_of_singleton in Hin; discriminate.
  - destruct (derives_Exception e); simpl.
    all: eexists _, _, _; split; [reflexivity|]; simpl; rewrite <- ?(assoc app).
    all: split; [reflexivity|].
    all: try apply not_elem_of_nil.
    all: intros Hin; apply list_elem_of_singleton in Hin; discriminate.
Qed.
End Orchestrator.

(** ** Where a match lies, and what its groups hold *)

Section RegexSpans.
Variable ud : N -> bool.

Lemma plus_greedy_value {A} cs (k : pystr -> nat -> option A) s pos x :
  plus_greedy ud cs k s pos = Some x ->
  ∃ w s', s = w ++ s' ∧ w ≠ [] ∧ Forall (fun c => in_charset ud cs c = true) w
          ∧ k s' (pos + length w)%nat = Some x.
Proof.
  revert pos. induction s as [|c s IH]; intros pos; simpl; [discriminate|].
  destruct (in_charset ud cs c) eqn:Hc; [|discriminate].
  destruct (plus_greedy ud cs k s (S pos)) as [y|] eqn:Hg.
  - intros [= ->]. destruct (IH _ Hg) as (w & s' & -> & Hne & Hall & Hk).
    exists (c :: w), s'. repeat split; auto.
    replace (pos + length (c :: w))%nat with (S pos + length w)%nat by (simpl; lia).
    exact Hk.
  - intros Hk. exists [c], s. repeat split; auto.
    replace (pos + length [c])%nat with (S pos) by (simpl; lia). exact Hk.
Qed.

(** The value of a successful match is the value of its continuation, run
    after a word of the pattern with the groups of that word recorded. *)
Lemma rmatch_value {A} r : ∀ s pos caps (k : pystr -> nat -> list (nat * nat) -> option A) x,
  rmatch ud r s pos caps k = Some x ->
  ∃ w s' caps', s = w ++ s' ∧ spans ud r w pos caps caps'
                ∧ k s' (pos + length w)%nat caps' = Some x.
Proof.
  induction r as [|cs|cs|r1 IH1 r2 IH2|r IH]; intros s pos caps k x; simpl.
  - intros Hk. exists [], s, caps. rewrite Nat.add_0_r. auto.
  - destruct s as [|c s]; [discriminate|].
    destruct (in_charset ud cs c) eqn:Hc; [|discriminate].
    intros Hk. exists [c], s, caps. split; [reflexivity|]. split; [eauto|].
    replace (pos + length [c])%nat with (S pos) by (simpl; lia). exact Hk.
  - intros H. apply plus_greedy_value in H as (w & s' & -> & Hne & Hall & Hk).
    exists w, s', caps. auto.
  - intros H. apply IH1 in H as (w1 & s1 & caps1 & -> & Hw1 & H).
    apply IH2 in H as (w2 & s2 & caps2 & -> & Hw2 & H).
    exists (w1 ++ w2), s2, caps2. rewrite <- (assoc app). split; [reflexivity|].
    split; [by exists w1, w2, caps1|].
    rewrite length_app, Nat.add_assoc. exact H.
  - intros H. apply IH in H as (w & s' & caps' & -> & Hw & H).
    exists w, s', (caps' ++ [(pos, (pos + length w)%nat)]). eauto.
Qed.

Lemma match_at_value r s pos e caps :
  match_at ud r s pos = Some (e, caps) ->
  ∃ w s', s = w ++ s' ∧ spans ud r w pos [] caps ∧ e = (pos + length w)%nat.
Proof.
  unfold match_at. intros H.
  apply rmatch_value in H as (w & s' & caps' & -> & Hw & [= <- <-]). eauto.
Qed.

Lemma spans_lang r : ∀ w pos caps caps', spans ud r w pos caps caps' -> lang ud r w.
Proof.
  induction r as [|cs|cs|r1 IH1 r2 IH2|r IH]; intros w pos caps caps'; simpl.
  - by intros [-> _].
  - by intros [H _].
  - by intros [H _].
  - intros (w1 & w2 & caps1 & -> & H1 & H2). exists w1, w2. eauto.
  - intros (caps1 & H & _). eauto.
Qed.

(** What [re.search] returns: a match object over the whole subject whose
    span holds a word of the pattern, with no match starting further left. *)
Lemma search_from_value r whole s pre m :
  whole = pre ++ s ->
  search_from ud r whole s (length pre) = Some m ->
  ∃ p w q,
    whole = p ++ w ++ q ∧ m_string m = whole
    ∧ m_start m = length p ∧ m_end m = (length p + length w)%nat
    ∧ spans ud r w (length p) [] (m_groups m)
    ∧ ∀ p' s', whole = p' ++ s' -> (length pre <= length p' < length p)%nat ->
               match_at ud r s' (length p') = None.
Proof.
  revert pre. induction s as [|c s IH]; intros pre Hwhole; simpl.
  - destruct (match_at ud r [] (length pre)) as [[e caps]|] eqn:Hm; [|discriminate].
    intros [= <-]. apply match_at_value in Hm as (w & s' & Hs & Hw & ->).
    exists pre, w, s'. simpl. rewrite <- Hs. repeat split; auto. intros; lia.
  - destruct (match_at ud r (c :: s) (length pre)) as [[e caps]|] eqn:Hm.
    + intros [= <-]. apply match_at_value in Hm as (w & s' & Hs & Hw & ->).
      exists pre, w, s'. simpl. rewrite <- Hs. repeat split; auto. intros; lia.
    + intros H. specialize (IH (pre ++ [c])).
      rewrite length_app in IH. simpl in IH. rewrite Nat.add_1_r in IH.
      destruct IH as (p & w & q & Hw & Hstr & Hst & Hen & Hsp & Hleft);
        [by rewrite <- (assoc app)|exact H|].
      exists p, w, q. repeat split; auto.
      intros p' s' Hp' [Hlo Hhi].
      destruct (decide (length p' = length pre)) as [Heq|Hne].
      * assert (p' = pre ∧ s' = c :: s) as [-> ->].
        { rewrite Hwhole in Hp'. symmetry in Heq.
          apply app_inj_1 in Hp' as [-> ->]; auto. }
        exact Hm.
      * apply Hleft; [exact Hp'|lia].
Qed.

Lemma re_search_value r s m :
  re_search ud r s = Some m ->
  ∃ p w q,
    s = p ++ w ++ q ∧ m_string m = s
    ∧ m_start m = length p ∧ m_end m = (length p + length w)%nat
    ∧ spans ud r w (length p) [] (m_groups m)
    ∧ ∀ p' s', s = p' ++ s' -> (length p' < length p)%nat ->
               match_at ud r s' (length p') = None.
Proof.
  intros H. destruct (search_from_value r s s [] m eq_refl H)
    as (p & w & q & H1 & H2 & H3 & H4 & H5 & H6).
  exists p, w, q. repeat split; auto. intros p' s' Hp' Hlt. apply H6; [exact Hp'|simpl; lia].
Qed.

Lemma substring_middle (p w q : pystr) :
  substring (p ++ w ++ q) (length p) (length p + length w) = w.
Proof.
  unfold substring. rewrite drop_app_length.
  replace (length p + length w - length p)%nat with (length w) by lia.
  apply take_app_length.
Qed.

Lemma spans_lit t w pos caps caps' :
  spans ud (lit t) w pos caps caps' <-> w = t ∧ caps' = caps.
Proof.
  revert w pos caps caps'. induction t as [|a t IH]; intros w pos caps caps'; simpl; [done|].
  split.
  - intros (w1 & w2 & caps1 & -> & [(c & -> & Hc) ->] & Hw2).
    apply IH in Hw2 as [-> ->]. apply N.eqb_eq in Hc as ->. done.
  - intros [-> ->]. exists [a], t, caps. split; [done|]. split; [|by apply IH].
    split; [|done]. exists a. split; [done|]. apply N.eqb_refl.
Qed.

(** The one group of a pattern [prefix(cs+)suffix] is the run of [cs]. *)
Lemma spans_delimited_group o cs c w pos caps' :
  spans ud (Seq (lit o) (Seq (Group (Plus cs)) (lit c))) w pos [] caps' <->
  ∃ run, w = o ++ run ++ c ∧ run ≠ []
         ∧ Forall (fun x => in_charset ud cs x = true) run
         ∧ caps' = [((pos + length o)%nat, (pos + length o + length run)%nat)].
Proof.
  cbn [spans]. split.
  - intros (w1 & w' & caps1 & -> & H1 & w2 & w3 & caps2 & -> & (caps3 & [[Hne Hall] ->] & ->) & H3).
    apply spans_lit in H1 as [-> ->]. apply spans_lit in H3 as [-> ->].
    exists w2. done.
  - intros (run & -> & Hne & Hall & ->).
    exists o, (run ++ c), []. split; [done|]. split; [by apply spans_lit|].
    exists run, c, [((pos + length o)%nat, (pos + length o + length run)%nat)].
    split; [done|]. split; [|by apply spans_lit].
    exists []. done.
Qed.
End RegexSpans.

(** ** More on the classifier *)

Section ClassifierMore.
Context {C : Collaborators}.

(** The loop returns at the first pattern that is found, and logs what that
    pattern matched. *)
Lemma check_patterns_first ps1 p ps2 s m st :
  Forall (fun q => re_search unicode_decimal q s = None) ps1 ->
  re_search unicode_decimal p s = Some m ->
  check_patterns (ps1 ++ p :: ps2) (PyStr s) st
  = (Return true,
     {| world := world st;
        trace := trace st ++ [EvLog INFO [FText "登录验证成功，匹配到："; FStr (group0 m)]] |}).
Proof.
  intros Hnone Hm. induction Hnone as [|q ps1 Hq _ IH]; simpl.
  - unfold mbind, M_bind. simpl. rewrite Hm. reflexivity.
  - unfold mbind, M_bind. simpl. rewrite Hq. exact IH.
Qed.

Lemma check_patterns_none ps s st :
  Forall (fun q => re_search unicode_decimal q s = None) ps ->
  check_patterns ps (PyStr s) st
  = (Return false,
     {| world := world st;
        trace := trace st ++ [EvLog ERROR [FText "未找到登录成功的标识"]] |}).
Proof.
  intros Hnone. induction Hnone as [|q ps Hq _ IH]; simpl; [reflexivity|].
  unfold mbind, M_bind. simpl. rewrite Hq. exact IH.
Qed.

Lemma found_false pattern s : found pattern s = false <-> re_search unicode_decimal pattern s = None.
Proof. unfold found. destruct (re_search _ _ _); split; congruence. Qed.

Lemma group0_lit t s m :
  re_search unicode_decimal (lit t) s = Some m -> group0 m = t.
Proof.
  intros H. apply re_search_value in H as (p & w & q & -> & Hstr & Hst & Hen & Hsp & _).
  apply spans_lit in Hsp as [-> _]. unfold group0. rewrite Hstr, Hst, Hen.
  apply substring_middle.
Qed.

(** On a [str] body the classifier accepts exactly the bodies that hold one
    of the four literal markers or a glyphicon-class span whose text is a
    non-empty run free of [<], [退] and [出]; it never raises. *)
Theorem classifier_accepts_iff self (body : pystr) st :
  (∃ b, (_check_login_success self (PyStr body) st).1 = Return b)
  ∧ ((_check_login_success self (PyStr body) st).1 = Return true <->
     contains TITLE body = true ∨ contains PERSONAL_CENTER body = true
     ∨ contains MY_DESKTOP body = true ∨ contains ACADEMIC_RECORD body = true
     ∨ ∃ pre run post, body = pre ++ SPAN_OPEN ++ run ++ SPAN_CLOSE ++ post
                       ∧ run ≠ [] ∧ Forall (fun c => c ∉ NAME_EXCLUDED) run).
Proof.
  rewrite _check_login_success_str. split; [eauto|].
  rewrite <- found_name_pattern. split.
  - intros [= H]. rewrite !orb_true_iff in H. tauto.
  - intros H. f_equal. rewrite !orb_true_iff. tauto.
Qed.

(** A body that is not a [str] makes the classifier raise the [TypeError] of
    [re.search] before it has logged anything. *)
Theorem classifier_raises_on_non_str self (v : pyval) st :
  (∀ s, v ≠ PyStr s) ->
  ∃ e, _check_login_success self v st = (Raise e, st)
       ∧ exc_class e = "TypeError"%string ∧ derives_Exception e = true.
Proof.
  intros Hv. destruct v as [|s|b].
  - exists TypeError_NoneType. done.
  - by destruct (Hv s).
  - exists TypeError_bytes. done.
Qed.

(** On a [str] body the classifier writes one line to the log and touches
    nothing else. When it accepts, the line carries [match.group()] of the
    first pattern of the list that [re.search] finds: the leftmost place of
    the body where that pattern matches, cut out of the body. When it
    rejects, no pattern is found and the line is the not-found message. *)
Theorem classifier_logs_one_line self (body : pystr) st :
  ∃ b line,
    _check_login_success self (PyStr body) st
    = (Return b, {| world := world st; trace := trace st ++ [line] |})
    ∧ if b
      then ∃ before pattern after m pre post,
             patterns = before ++ pattern :: after
             ∧ Forall (fun q => re_search unicode_decimal q body = None) before
             ∧ re_search unicode_decimal pattern body = Some m
             ∧ line = EvLog INFO [FText "登录验证成功，匹配到："; FStr (group0 m)]
             ∧ body = pre ++ group0 m ++ post
             ∧ lang unicode_decimal pattern (group0 m)
             ∧ ∀ p' s', body = p' ++ s' -> (length p' < length pre)%nat ->
                        match_at unicode_decimal pattern s' (length p') = None
      else line = EvLog ERROR [FText "未找到登录成功的标识"]
           ∧ Forall (fun q => re_search unicode_decimal q body = None) patterns.
Proof.
  unfold _check_login_success.
  assert (Hsplit : (∃ ps1 p ps2 m, patterns = ps1 ++ p :: ps2
                      ∧ Forall (fun q => re_search unicode_decimal q body = None) ps1
                      ∧ re_search unicode_decimal p body = Some m)
                   ∨ Forall (fun q => re_search unicode_decimal q body = None) patterns).
  { generalize patterns. intros ps. induction ps as [|p ps IH]; [right; constructor|].
    destruct (re_search unicode_decimal p body) as [m|] eqn:Hp.
    - left. exists [], p, ps, m. auto.
    - destruct IH as [(ps1 & p' & ps2 & m & -> & Hn & Hm)|Hn].
      + left. exists (p :: ps1), p', ps2, m. auto.
      + right. auto. }
  destruct Hsplit as [(ps1 & p & ps2 & m & Hps & Hn & Hm)|Hn].
  - exists true. eexists. split; [rewrite Hps; by apply check_patterns_first|].
    pose proof Hm as Hm'.
    apply re_search_value in Hm' as (pre & w & q & Hbody & Hstr & Hst & Hen & Hsp & Hleft).
    assert (Hg : group0 m = w).
    { unfold group0. rewrite Hstr, Hst, Hen, Hbody. apply substring_middle. }
    exists ps1, p, ps2, m, pre, q. rewrite Hg.
    split; [exact Hps|]. split; [exact Hn|]. split; [exact Hm|]. split; [reflexivity|].
    split; [exact Hbody|]. split; [by eapply spans_lang|exact Hleft].
  - exists false. eexists. split; [by apply check_patterns_none|]. by split.
Qed.

(** The marker that is logged is the first of the four literals, in the
    order of the list, that the body holds. *)
Theorem classifier_reports_first_literal self (body : pystr) st before marker after :
  [TITLE; PERSONAL_CENTER; MY_DESKTOP; ACADEMIC_RECORD] = before ++ marker :: after ->
  Forall (fun t => contains t body = false) before ->
  contains marker body = true ->
  _check_login_success self (PyStr body) st
  = (Return true,
     {| world := world st;
        trace := trace st ++ [EvLog INFO [FText "登录验证成功，匹配到："; FStr marker]] |}).
Proof.
  intros Hlist Hbefore Hmarker.
  assert (Hm : ∃ m, re_search unicode_decimal (lit marker) body = Some m).
  { apply (re_search_lit unicode_decimal) in Hmarker. destruct Hmarker as [m Hm]. eauto. }
  destruct Hm as [m Hm]. rewrite <- (group0_lit _ _ _ Hm).
  unfold _check_login_success.
  assert (Hps : patterns = (lit <$> before) ++ lit marker :: ((lit <$> after) ++ [name_pattern])).
  { unfold patterns.
    change [lit TITLE; lit PERSONAL_CENTER; lit MY_DESKTOP; lit ACADEMIC_RECORD; name_pattern]
      with ((lit <$> [TITLE; PERSONAL_CENTER; MY_DESKTOP; ACADEMIC_RECORD]) ++ [name_pattern]).
    rewrite Hlist, fmap_app, <- (assoc app). reflexivity. }
  rewrite Hps. apply check_patterns_first; [|exact Hm].
  apply Forall_fmap. eapply Forall_impl; [exact Hbefore|]. simpl.
  intros t Ht. apply found_false. rewrite found_lit. exact Ht.
Qed.
End ClassifierMore.

(** ** The parser of the student page *)



Lemma app_cons_inj_fresh {A} (a : A) l1 r1 l2 r2 :
  l1 ++ a :: r1 = l2 ++ a :: r2 -> a ∉ l1 -> a ∉ l2 -> l1 = l2.
Proof.
  revert l2. induction l1 as [|x l1 IH]; intros [|y l2]; simpl; intros H H1 H2.
  - reflexivity.
  - injection H as <- _. exfalso. apply H2. left.
  - injection H as -> _. exfalso. apply H1. left.
  - injection H as -> H. f_equal. apply IH; [exact H| |].
    + intros Hin. apply H1. by right.
    + intros Hin. apply H2. by right.
Qed.

Lemma app_cons_early {A} (a : A) pre x p y :
  pre ++ x = p ++ a :: y -> (length p < length pre)%nat -> a ∈ pre.
Proof.
  intros H Hlt. apply (f_equal (fun l => l !! length p)) in H.
  rewrite lookup_app_l in H by exact Hlt.
  rewrite list_lookup_middle in H by reflexivity.
  eapply list_elem_of_lookup_2. exact H.
Qed.

Section Parser.
Context {C : Collaborators}.

(** What a pattern [prefix(cs+)suffix] finds: the leftmost place where it
    matches, with the run of [cs] as group 1. *)
Lemma re_search_delimited o cs c body m :
  re_search unicode_decimal (Seq (lit o) (Seq (Group (Plus cs)) (lit c))) body = Some m ->
  ∃ pre run post,
    body = pre ++ o ++ run ++ c ++ post
    ∧ run ≠ [] ∧ Forall (fun x => in_charset unicode_decimal cs x = true) run
    ∧ group1 m = run
    ∧ ∀ p' s', body = p' ++ s' -> (length p' < length pre)%nat ->
               match_at unicode_decimal (Seq (lit o) (Seq (Group (Plus cs)) (lit c))) s'
                 (length p') = None.
Proof.
  intros H. apply re_search_value in H as (p & w & q & -> & Hstr & Hst & Hen & Hsp & Hleft).
  apply spans_delimited_group in Hsp as (run & -> & Hne & Hall & Hcaps).
  assert (E : p ++ (o ++ run ++ c) ++ q = p ++ o ++ run ++ c ++ q)
    by (by rewrite <- !app_assoc).
  rewrite E in Hstr, Hleft. rewrite E.
  exists p, run, q. split; [reflexivity|]. split; [exact Hne|].
  split; [exact Hall|]. split; [|exact Hleft].
  unfold group1. rewrite Hcaps, Hstr.
  replace (p ++ o ++ run ++ c ++ q) with ((p ++ o) ++ run ++ (c ++ q))
    by (by rewrite <- !app_assoc).
  rewrite <- length_app. apply substring_middle.
Qed.

Lemma re_search_name_pattern body m :
  re_search unicode_decimal name_pattern body = Some m ->
  ∃ pre run post,
    body = pre ++ SPAN_OPEN ++ run ++ SPAN_CLOSE ++ post
    ∧ run ≠ [] ∧ Forall (fun c => c ∉ NAME_EXCLUDED) run
    ∧ group1 m = run
    ∧ ∀ p' s', body = p' ++ s' -> (length p' < length pre)%nat ->
               match_at unicode_decimal name_pattern s' (length p') = None.
Proof.
  intros H. apply re_search_delimited in H as (pre & run & post & Hb & Hne & Hall & Hg & Hl).
  exists pre, run, post. split; [exact Hb|]. split; [exact Hne|]. split; [|by split].
  eapply Forall_impl; [exact Hall|]. simpl. intros x Hx.
  by apply negb_true_iff, bool_decide_eq_false in Hx.
Qed.

Lemma re_search_userid_pattern body m :
  re_search unicode_decimal userid_pattern body = Some m ->
  ∃ pre run post,
    body = pre ++ u "var userid = '" ++ run ++ u "';" ++ post
    ∧ run ≠ [] ∧ Forall (fun c => unicode_decimal c = true) run
    ∧ group1 m = run.
Proof.
  intros H. apply re_search_delimited in H as (pre & run & post & Hb & Hne & Hall & Hg & _).
  exists pre, run, post. auto.
Qed.

(** The two steps of the parser on a [str] page. *)
Lemma _parse_student_info_str self body st :
  _parse_student_info self (PyStr body) st
  = (Return
       (let info : gmap string pystr :=
          match re_search unicode_decimal name_pattern body with
          | Some m =>
              if truthy (PyStr (strip (group1 m))) && negb (pystr_eqb (strip (group1 m)) LOGOUT)
              then <["name"%string := strip (group1 m)]> ∅
              else ∅
          | None => ∅
          end in
        match re_search unicode_decimal userid_pattern body with
        | Some m => <["student_id"%string := group1 m]> info
        | None => info
        end), st).
Proof. reflexivity. Qed.


(** The entry [student_id], when the parser records one, is a non-empty run
    of decimal digits that stands in the page between [var userid = '] and
    ['; ]. *)
Theorem parsed_student_id_is_digits self (body : pystr) st info sid :
  (_parse_student_info self (PyStr body) st).1 = Return info ->
  info !! "student_id"%string = Some sid ->
  sid ≠ [] ∧ Forall (fun c => unicode_decimal c = true) sid
  ∧ ∃ pre post, body = pre ++ u "var userid = '" ++ sid ++ u "';" ++ post.
Proof.
  rewrite _parse_student_info_str. cbn [fst]. intros [= <-] Hsid. cbv zeta in Hsid.
  destruct (re_search unicode_decimal userid_pattern body) as [m|] eqn:Hm.
  - rewrite lookup_insert_eq in Hsid. injection Hsid as <-.
    apply re_search_userid_pattern in Hm as (pre & run & post & Hbody & Hne & Hall & ->).
    eauto.
  - destruct (re_search unicode_decimal name_pattern body) as [m'|].
    + destruct (_ && _); [by rewrite lookup_insert_ne in Hsid|by rewrite lookup_empty in Hsid].
    + by rewrite lookup_empty in Hsid.
Qed.

(** The parser records no other keys than [name] and [student_id], and a
    page with neither a glyphicon-class span nor a [userid] assignment gives
    the empty dict. *)
Theorem parsed_keys self (body : pystr) st info :
  (_parse_student_info self (PyStr body) st).1 = Return info ->
  (∀ key, is_Some (info !! key) -> key = "name"%string ∨ key = "student_id"%string)
  ∧ (contains SPAN_OPEN body = false -> contains (u "var userid = '") body = false ->
     info = ∅).
Proof.
  rewrite _parse_student_info_str. cbn [fst]. intros [= <-]. cbv zeta. split.
  - intros key [v Hv].
    destruct (decide (key = "student_id"%string)) as [->|Hne1]; [by right|].
    destruct (decide (key = "name"%string)) as [->|Hne2]; [by left|]. exfalso.
    destruct (re_search unicode_decimal userid_pattern body);
      [rewrite lookup_insert_ne in Hv by done|];
      (destruct (re_search unicode_decimal name_pattern body);
         [destruct (_ && _); [rewrite lookup_insert_ne in Hv by done|]|]);
      by rewrite lookup_empty in Hv.
  - intros Hspan Huserid.
    destruct (re_search unicode_decimal name_pattern body) as [m|] eqn:Hm.
    { apply re_search_name_pattern in Hm as (pre & run & post & Hbody & _).
      assert (contains SPAN_OPEN body = true) by (apply contains_spec; eauto). congruence. }
    destruct (re_search unicode_decimal userid_pattern body) as [m|] eqn:Hm'; [|reflexivity].
    apply re_search_userid_pattern in Hm' as (pre & run & post & Hbody & _).
    assert (contains (u "var userid = '") body = true) by (apply contains_spec; eauto).
    congruence.
Qed.

(** Only the leftmost span counts: when the first glyphicon-class span of a
    page holds white space only, no name is recorded, whatever spans follow. *)
Theorem blank_first_span_hides_name self (pre ws post : pystr) st info :
  60 ∉ pre -> ws ≠ [] -> strip ws = [] ->
  (_parse_student_info self (PyStr (pre ++ span_of ws ++ post)) st).1 = Return info ->
  info !! "name"%string = None.
Proof.
  intros Hpre Hne Hblank.
  assert (Hbody : pre ++ span_of ws ++ post = pre ++ SPAN_OPEN ++ ws ++ SPAN_CLOSE ++ post).
  { unfold span_of. by rewrite <- !app_assoc. }
  revert Hbody. generalize (pre ++ span_of ws ++ post). intros body Hbody.
  rewrite _parse_student_info_str. cbn [fst]. intros [= <-]. cbv zeta.
  assert (Hws : Forall (fun c => c ∉ NAME_EXCLUDED) ws).
  { eapply Forall_impl; [by apply strip_nil|]. apply isspace_not_excluded. }
  assert (Hhere : is_Some (match_at unicode_decimal name_pattern
                             (SPAN_OPEN ++ ws ++ SPAN_CLOSE ++ post) (length pre))).
  { apply match_at_lang. exists (SPAN_OPEN ++ ws ++ SPAN_CLOSE), post.
    split; [by rewrite <- !app_assoc|]. apply lang_name_pattern. eauto. }
  assert (Hname :
    match re_search unicode_decimal name_pattern body with
    | Some m =>
        if truthy (PyStr (strip (group1 m))) && negb (pystr_eqb (strip (group1 m)) LOGOUT)
        then <["name"%string := strip (group1 m)]> (∅ : gmap string pystr)
        else ∅
    | None => ∅
    end !! "name"%string = None).
  { destruct (re_search unicode_decimal name_pattern body) as [m|] eqn:Hm; [|apply lookup_empty].
    apply re_search_name_pattern in Hm as (p & run & q & Hsplit & Hrne & Hrun & Hg & Hleft).
    assert (Hlen : length p = length pre).
    { destruct (Nat.lt_trichotomy (length p) (length pre)) as [Hlt|[Heq|Hgt]]; [|exact Heq|].
      - exfalso. apply Hpre. rewrite Hbody in Hsplit.
        change SPAN_OPEN with (60 :: u "span class=" ++ [dquote] ++ u "glyphicon-class"
                                  ++ [dquote] ++ u ">") in Hsplit at 2.
        cbn [app] in Hsplit. eapply app_cons_early; [exact Hsplit|exact Hlt].
      - exfalso. rewrite (Hleft pre _ Hbody Hgt) in Hhere. by destruct Hhere. }
    rewrite Hbody in Hsplit. apply app_inj_1 in Hsplit as [_ Hrest]; [|by symmetry].
    apply app_inv_head in Hrest.
    change SPAN_CLOSE with (60 :: u "/span>") in Hrest.
    apply app_cons_inj_fresh in Hrest.
    - subst run. rewrite Hg, Hblank. simpl. apply lookup_empty.
    - intros Hin. rewrite Forall_forall in Hws. apply (Hws _ Hin).
      change NAME_EXCLUDED with [60; 36864; 20986]. left.
    - intros Hin. rewrite Forall_forall in Hrun. apply (Hrun _ Hin).
      change NAME_EXCLUDED with [60; 36864; 20986]. left. }
  destruct (re_search unicode_decimal userid_pattern body);
    [by rewrite lookup_insert_ne|exact Hname].
Qed.
End Parser.

(** ** Runs as functions of the world *)

Arguments _complete_sso_login : simpl never.
Arguments login : simpl never.
Arguments get_student_info : simpl never.
Arguments __init__ : simpl never.

Ltac run_complete :=
  unfold _complete_sso_login; unfold_client; simpl.

Ltac leaf n :=
  split; [reflexivity|]; split; [exists n; reflexivity|].

Section Frames.
Context {C : Collaborators}.

Lemma requests_of_app t1 t2 : requests_of (t1 ++ t2) = requests_of t1 ++ requests_of t2.
Proof. apply omap_app. Qed.

Lemma log_of_app t1 t2 : log_of (t1 ++ t2) = log_of t1 ++ log_of t2.
Proof. apply omap_app. Qed.

Lemma token_calls_of_app t1 t2 :
  token_calls_of (t1 ++ t2) = token_calls_of t1 ++ token_calls_of t2.
Proof. apply omap_app. Qed.

(** The classifier appends the same log lines, and gives the same outcome,
    whatever the state it starts from. *)
Lemma check_patterns_frame ps v :
  ∃ o evs,
    (∀ s, check_patterns ps v s = (o, {| world := world s; trace := trace s ++ evs |}))
    ∧ requests_of evs = [] ∧ token_calls_of evs = []
    ∧ ∀ e, o = Raise e -> derives_Exception e = true.
Proof.
  induction ps as [|p ps IH].
  - exists (Return false), [EvLog ERROR [FText "未找到登录成功的标识"]]. done.
  - destruct v as [|t|b].
    + exists (Raise TypeError_NoneType), []. split; [|split; [done|split; [done|]]].
      * intros [w t]. simpl. by rewrite app_nil_r.
      * by intros e [= <-].
    + destruct (re_search unicode_decimal p t) as [m|] eqn:Hm.
      * exists (Return true). eexists. split; [|split; [|split]].
        -- intros s. simpl. unfold mbind, M_bind. simpl. rewrite Hm. reflexivity.
        -- reflexivity.
        -- reflexivity.
        -- discriminate.
      * destruct IH as (o & evs & Hrun & Hrest). exists o, evs. split; [|exact Hrest].
        intros s. simpl. unfold mbind, M_bind. simpl. rewrite Hm. apply Hrun.
    + exists (Raise TypeError_bytes), []. split; [|split; [done|split; [done|]]].
      * intros [w t]. simpl. by rewrite app_nil_r.
      * by intros e [= <-].
Qed.

(** [_complete_sso_login] appends the same events, and gives the same
    outcome and world, whatever trace it starts from; its GETs are an
    initial part of the chain, all following redirects; it calls no
    credential exchange; it lets no exception derived from [Exception] out. *)
Lemma complete_frame self redirect_url w :
  ∃ o w' evs,
    (∀ t, _complete_sso_login self redirect_url {| world := w; trace := t |}
          = (o, {| world := w'; trace := t ++ evs |}))
    ∧ token_calls_of evs = []
    ∧ (∃ n, requests_of evs = take n ((fun url => (url, Some true)) <$> chain redirect_url))
    ∧ ∀ e, o = Raise e -> derives_Exception e = false.
Proof.
  destruct (session self) as [sm|] eqn:Hsm.
  2: { eexists _, _, _. split.
       - intros t. run_complete. rewrite Hsm. simpl. reflexivity.
       - leaf 0%nat. discriminate. }
  destruct (session_get redirect_url (Some true) w) as [[r1|e] w1] eqn:H1.
  2: { destruct (derives_Exception e) eqn:He; eexists _, _, _; (split;
         [intros t; run_complete; rewrite Hsm; simpl; rewrite H1; simpl; rewrite He; simpl;
          rewrite <- ?app_assoc; reflexivity|leaf 1%nat]).
       - discriminate.
       - by intros ? [= <-]. }
  destruct (session_get (PyStr sso_url) (Some true) w1) as [[r2|e] w2] eqn:H2.
  2: { destruct (derives_Exception e) eqn:He; eexists _, _, _; (split;
         [intros t; run_complete; rewrite Hsm; simpl; rewrite H1; simpl; rewrite H2; simpl;
          rewrite He; simpl; rewrite <- ?app_assoc; reflexivity|leaf 2%nat]).
       - discriminate.
       - by intros ? [= <-]. }
  destruct (session_get (PyStr main_url) (Some true) w2) as [[r3|e] w3] eqn:H3.
  2: { destruct (derives_Exception e) eqn:He; eexists _, _, _; (split;
         [intros t; run_complete; rewrite Hsm; simpl; rewrite H1; simpl; rewrite H2; simpl;
          rewrite H3; simpl; rewrite He; simpl; rewrite <- ?app_assoc; reflexivity|leaf 3%nat]).
       - discriminate.
       - by intros ? [= <-]. }
  destruct (check_patterns_frame patterns (text r3)) as (o & evs & Hrun & Hreq & Htok & Hexc).
  destruct o as [[|]|e].
  - eexists _, _, _. split.
    + intros t. run_complete. rewrite Hsm. simpl. rewrite H1. simpl. rewrite H2. simpl.
      rewrite H3. simpl. unfold _check_login_success. rewrite Hrun. simpl.
      rewrite <- ?app_assoc. reflexivity.
    + rewrite !token_calls_of_app, !requests_of_app, Htok, Hreq. leaf 3%nat. discriminate.
  - eexists _, _, _. split.
    + intros t. run_complete. rewrite Hsm. simpl. rewrite H1. simpl. rewrite H2. simpl.
      rewrite H3. simpl. unfold _check_login_success. rewrite Hrun. simpl.
      rewrite <- ?app_assoc. reflexivity.
    + rewrite !token_calls_of_app, !requests_of_app, Htok, Hreq. leaf 3%nat. discriminate.
  - eexists _, _, _. split.
    + intros t. run_complete. rewrite Hsm. simpl. rewrite H1. simpl. rewrite H2. simpl.
      rewrite H3. simpl. unfold _check_login_success. rewrite Hrun. simpl.
      rewrite (Hexc e eq_refl). simpl. rewrite <- ?app_assoc. reflexivity.
    + rewrite !token_calls_of_app, !requests_of_app, Htok, Hreq. leaf 3%nat. discriminate.
Qed.

(** [login], up to the call of [_complete_sso_login]. *)
Lemma login_unfold self username password w t :
  login self username password {| world := w; trace := t |}
  = match get_token username password target_url w with
    | (Return redirect_url, w0) =>
        if truthy redirect_url then
          _complete_sso_login self redirect_url
            {| world := w0;
               trace := t ++ [EvLog INFO [FText "正在获取认证Token..."];
                              EvGetToken username password target_url;
                              EvLog INFO [FText "获取到重定向URL："; FVal redirect_url]] |}
        else
          (Return false,
           {| world := w0;
              trace := t ++ [EvLog INFO [FText "正在获取认证Token..."];
                             EvGetToken username password target_url;
                             EvLog ERROR [FText "获取认证Token失败"]] |})
    | (Raise e, w0) =>
        (Raise e,
         {| world := w0;
            trace := t ++ [EvLog INFO [FText "正在获取认证Token..."];
                           EvGetToken username password target_url] |})
    end.
Proof.
  unfold login, extern, log_info, log_error, emit, mbind, M_bind, mret, M_ret. simpl.
  destruct (get_token username password target_url w) as [[redirect_url|e] w0]; simpl.
  - destruct (truthy redirect_url); simpl; rewrite <- ?app_assoc; reflexivity.
  - rewrite <- ?app_assoc. reflexivity.
Qed.

Lemma state_eta (s : state) : s = {| world := world s; trace := trace s |}.
Proof. by destruct s. Qed.
End Frames.

Section LoginMore.
Context {C : Collaborators}.

(** An exception of the credential exchange is not caught: it leaves [login]
    as it is, whatever its class, before any GET is made. *)
Theorem token_failure_propagates self (username password : pystr) st e w1 :
  get_token username password target_url (world st) = (Raise e, w1) ->
  login self username password st
  = (Raise e,
     {| world := w1;
        trace := trace st ++ [EvLog INFO [FText "正在获取认证Token..."];
                              EvGetToken username password target_url] |}).
Proof.
  intros Htoken. destruct st as [w t]. simpl in *. rewrite login_unfold, Htoken. reflexivity.
Qed.

(** The only exceptions that leave [login] are those the credential exchange
    raised and those that do not derive from [Exception]. *)
Theorem login_lets_out_only self (username password : pystr) st e :
  (login self username password st).1 = Raise e ->
  derives_Exception e = false
  ∨ ∃ w1, get_token username password target_url (world st) = (Raise e, w1).
Proof.
  destruct st as [w t]. simpl. rewrite login_unfold.
  destruct (get_token username password target_url w) as [[redirect_url|e'] w0].
  - destruct (truthy redirect_url); [|discriminate].
    destruct (complete_frame self redirect_url w0) as (o & w' & evs & Hrun & _ & _ & Hexc).
    rewrite Hrun. simpl. intros ->. left. by apply Hexc.
  - simpl. intros [= ->]. right. eauto.
Qed.

(** The calls that a run of [login] makes. *)
Lemma login_summary self (username password : pystr) st :
  ∃ o st' evs,
    login self username password st = (o, st')
    ∧ trace st' = trace st ++ evs
    ∧ token_calls_of evs = [(username, password, target_url)]
    ∧ match get_token username password target_url (world st) with
      | (Return redirect_url, _) =>
          requests_of evs `prefix_of` (fun url => (url, Some true)) <$> chain redirect_url
      | (Raise _, _) => requests_of evs = []
      end.
Proof.
  destruct st as [w t]. simpl. rewrite login_unfold.
  destruct (get_token username password target_url w) as [[redirect_url|e'] w0].
  - destruct (truthy redirect_url).
    + destruct (complete_frame self redirect_url w0) as (o & w' & evs & Hrun & Htok & [n Hreq] & _).
      rewrite Hrun. eexists _, _, _. split; [reflexivity|]. simpl.
      rewrite <- app_assoc. split; [reflexivity|].
      rewrite token_calls_of_app, requests_of_app, Htok, Hreq. split; [reflexivity|].
      simpl. apply prefix_take.
    + eexists _, _, _. split; [reflexivity|]. simpl. split; [reflexivity|].
      split; [reflexivity|]. apply prefix_nil.
  - eexists _, _, _. split; [reflexivity|]. simpl. done.
Qed.

(** Every run of [login] calls the credential exchange once, with the
    credentials as given and the fixed target URL; its GETs are an initial
    part of the chain of the ticket URL it got, each one following
    redirects, so there are never more than three and never another URL. *)
Theorem login_requests_within_chain self (username password : pystr) st :
  ∃ o st' evs,
    login self username password st = (o, st')
    ∧ trace st' = trace st ++ evs
    ∧ token_calls_of evs = [(username, password, target_url)]
    ∧ match get_token username password target_url (world st) with
      | (Return redirect_url, _) =>
          requests_of evs `prefix_of` (fun url => (url, Some true)) <$> chain redirect_url
      | (Raise _, _) => requests_of evs = []
      end.
Proof. apply login_summary. Qed.

(** The password goes to the credential exchange and nowhere else: two runs
    that differ in the password alone and get the same answer from the
    exchange return the same value, leave the same world, make the same
    GETs and write the same log. *)
Theorem password_only_reaches_exchange self (username password password' : pystr) st :
  get_token username password target_url (world st)
  = get_token username password' target_url (world st) ->
  ∃ o w' evs evs',
    login self username password st = (o, {| world := w'; trace := trace st ++ evs |})
    ∧ login self username password' st = (o, {| world := w'; trace := trace st ++ evs' |})
    ∧ log_of evs = log_of evs'
    ∧ requests_of evs = requests_of evs'.
Proof.
  intros Hsame. destruct st as [w t]. simpl in *. rewrite !login_unfold, <- Hsame.
  destruct (get_token username password target_url w) as [[redirect_url|e'] w0].
  - destruct (truthy redirect_url).
    + destruct (complete_frame self redirect_url w0) as (o & w' & evs & Hrun & _).
      rewrite !Hrun. eexists _, _, _, _. rewrite <- !app_assoc.
      split; [reflexivity|]. split; [reflexivity|].
      rewrite !log_of_app, !requests_of_app. done.
    + eexists _, _, _, _. split; [reflexivity|]. split; [reflexivity|]. done.
  - eexists _, _, _, _. split; [reflexivity|]. split; [reflexivity|]. done.
Qed.

(** When the exchange hands out a ticket URL and the three GETs are answered
    with a [str] landing page, [login] returns the verdict of the five
    markers on that page, whatever the status codes and headers of the three
    responses, and its GETs are the chain. *)
Theorem login_verdict self (username password : pystr) st redirect_url w0 r1 r2 r3 w3 body :
  is_Some (session self) ->
  get_token username password target_url (world st) = (Return redirect_url, w0) ->
  truthy redirect_url = true ->
  answered (chain redirect_url) [r1; r2; r3] w0 w3 ->
  text r3 = PyStr body ->
  ∃ evs,
    login self username password st
    = (Return (contains TITLE body || contains PERSONAL_CENTER body
               || contains MY_DESKTOP body || contains ACADEMIC_RECORD body
               || found name_pattern body),
       {| world := w3; trace := trace st ++ evs |})
    ∧ requests_of evs = (fun url => (url, Some true)) <$> chain redirect_url.
Proof.
  intros [sm Hsm] Htoken Htruthy (w1 & H1 & w2 & H2 & w3' & H3 & <-) Hbody.
  destruct st as [w t]. simpl in *. rewrite login_unfold, Htoken, Htruthy.
  destruct (check_patterns_frame patterns (text r3)) as (o & evs & Hrun & Hreq & _).
  pose proof (_check_login_success_str self body {| world := w; trace := t |}) as Hv.
  unfold _check_login_success in Hv. rewrite <- Hbody, Hrun in Hv. simpl in Hv. subst o.
  run_complete. rewrite Hsm. simpl. rewrite H1. simpl. rewrite H2. simpl. rewrite H3. simpl.
  unfold _check_login_success. rewrite Hrun. simpl.
  destruct (contains TITLE body || contains PERSONAL_CENTER body
            || contains MY_DESKTOP body || contains ACADEMIC_RECORD body
            || found name_pattern body); simpl.
  all: eexists; rewrite <- ?app_assoc; split; [reflexivity|].
  all: rewrite !requests_of_app, Hreq; reflexivity.
Qed.
End LoginMore.

(** ** Fetching the student page *)

Ltac run_student :=
  unfold get_student_info; unfold_client; simpl.

Section StudentInfo.
Context {C : Collaborators}.

(** The parser on a page: a dict for a [str], the [TypeError] of
    [re.search] otherwise, and no effect either way. *)
Lemma _parse_student_info_frame self v :
  ∃ o, (∀ s, _parse_student_info self v s = (o, s))
       ∧ (∀ e, o = Raise e -> derives_Exception e = true ∧ ∀ body, v ≠ PyStr body).
Proof.
  destruct v as [|body|b].
  - exists (Raise TypeError_NoneType). split; [reflexivity|]. by intros e [= <-].
  - eexists. split; [intros s; apply _parse_student_info_str|]. discriminate.
  - exists (Raise TypeError_bytes). split; [reflexivity|]. by intros e [= <-].
Qed.

(** [get_student_info] appends the same events, and gives the same outcome
    and world, whatever trace it starts from. *)
Lemma student_frame self w :
  ∃ o w' evs,
    (∀ t, get_student_info self {| world := w; trace := t |}
          = (o, {| world := w'; trace := t ++ evs |}))
    ∧ token_calls_of evs = []
    ∧ requests_of evs `prefix_of`
        [(PyStr (base_url self ++ u "/jsxsd/framework/xsMain_new.jsp"), None)]
    ∧ ∀ e, o = Raise e -> derives_Exception e = false.
Proof.
  destruct (session self) as [sm|] eqn:Hsm.
  2: { eexists _, _, _. split; [intros t; run_student; rewrite Hsm; simpl; reflexivity|].
       split; [reflexivity|]. split; [apply prefix_nil|discriminate]. }
  destruct (SessionManager_truthy w) eqn:Htruthy.
  2: { eexists _, _, _. split;
         [intros t; run_student; rewrite Hsm; simpl; rewrite Htruthy; simpl; reflexivity|].
       split; [reflexivity|]. split; [apply prefix_nil|discriminate]. }
  destruct (session_get (PyStr (base_url self ++ u "/jsxsd/framework/xsMain_new.jsp")) None w)
    as [[r|e] w1] eqn:Hget.
  2: { destruct (derives_Exception e) eqn:He; eexists _, _, _; (split;
         [intros t; run_student; rewrite Hsm; simpl; rewrite Htruthy; simpl; rewrite Hget;
          simpl; rewrite He; simpl; rewrite <- ?app_assoc; reflexivity|]);
         (split; [reflexivity|]); (split; [reflexivity|]).
       - discriminate.
       - by intros ? [= <-]. }
  destruct (status_code r =? 200)%Z eqn:Hcode.
  2: { eexists _, _, _. split;
         [intros t; run_student; rewrite Hsm; simpl; rewrite Htruthy; simpl; rewrite Hget;
          simpl; rewrite Hcode; simpl; rewrite <- ?app_assoc; reflexivity|].
       split; [reflexivity|]. split; [reflexivity|discriminate]. }
  destruct (_parse_student_info_frame self (text r)) as (o & Hparse & Hexc).
  destruct o as [info|e].
  - eexists _, _, _. split;
      [intros t; run_student; rewrite Hsm; simpl; rewrite Htruthy; simpl; rewrite Hget;
       simpl; rewrite Hcode; simpl; rewrite Hparse; simpl; reflexivity|].
    split; [reflexivity|]. split; [reflexivity|discriminate].
  - destruct (Hexc e eq_refl) as [He _].
    eexists _, _, _. split;
      [intros t; run_student; rewrite Hsm; simpl; rewrite Htruthy; simpl; rewrite Hget;
       simpl; rewrite Hcode; simpl; rewrite Hparse; simpl; rewrite He; simpl;
       rewrite <- ?app_assoc; reflexivity|].
    split; [reflexivity|]. split; [reflexivity|discriminate].
Qed.

(** When the client has no session object, or the session object is falsy,
    [get_student_info] logs the request to log in and returns [None]
    without a GET. *)
Theorem guard_blocks_request self st :
  session self = None ∨ SessionManager_truthy (world st) = false ->
  get_student_info self st
  = (Return None,
     {| world := world st; trace := trace st ++ [EvLog ERROR [FText "请先登录"]] |}).
Proof.
  intros H. run_student. destruct (session self) as [sm|]; [|reflexivity].
  destruct H as [H|H]; [discriminate|]. rewrite H. reflexivity.
Qed.

(** A response whose status is not 200 is not parsed: [get_student_info]
    logs the status and returns [None], whatever the page holds. *)
Theorem student_info_needs_status_200 self st r w1 :
  is_Some (session self) ->
  SessionManager_truthy (world st) = true ->
  session_get (PyStr (base_url self ++ u "/jsxsd/framework/xsMain_new.jsp")) None (world st)
  = (Return r, w1) ->
  status_code r ≠ 200%Z ->
  get_student_info self st
  = (Return None,
     {| world := w1;
        trace := trace st
                 ++ [EvGet (PyStr (base_url self ++ u "/jsxsd/framework/xsMain_new.jsp")) None;
                     EvLog ERROR [FText "获取学生信息失败，状态码："; FStatus (status_code r)]] |}).
Proof.
  intros [sm Hsm] Htruthy Hget Hcode. apply Z.eqb_neq in Hcode.
  run_student. rewrite Hsm. simpl. rewrite Htruthy. simpl. rewrite Hget. simpl.
  rewrite Hcode. simpl. rewrite <- ?app_assoc. reflexivity.
Qed.

(** A [str] page answered with status 200 is parsed, and the dict is
    returned; nothing is logged. *)
Theorem student_info_parsed self st r w1 body :
  is_Some (session self) ->
  SessionManager_truthy (world st) = true ->
  session_get (PyStr (base_url self ++ u "/jsxsd/framework/xsMain_new.jsp")) None (world st)
  = (Return r, w1) ->
  status_code r = 200%Z ->
  text r = PyStr body ->
  ∃ info,
    (_parse_student_info self (PyStr body) st).1 = Return info
    ∧ get_student_info self st
      = (Return (Some info),
         {| world := w1;
            trace := trace st
                     ++ [EvGet (PyStr (base_url self ++ u "/jsxsd/framework/xsMain_new.jsp"))
                           None] |}).
Proof.
  intros [sm Hsm] Htruthy Hget Hcode Hbody. apply Z.eqb_eq in Hcode.
  eexists. split; [rewrite _parse_student_info_str; reflexivity|].
  run_student. rewrite Hsm. simpl. rewrite Htruthy. simpl. rewrite Hget. simpl.
  rewrite Hcode. simpl. rewrite Hbody, _parse_student_info_str. reflexivity.
Qed.

(** A GET that raises an exception derived from [Exception], and a page of
    status 200 that is not a [str], both end in [None] with the exception in
    the error log. *)
Theorem student_info_failures_give_None self st :
  is_Some (session self) ->
  SessionManager_truthy (world st) = true ->
  (∀ e w1,
     session_get (PyStr (base_url self ++ u "/jsxsd/framework/xsMain_new.jsp")) None (world st)
     = (Raise e, w1) ->
     derives_Exception e = true ->
     get_student_info self st
     = (Return None,
        {| world := w1;
           trace := trace st
                    ++ [EvGet (PyStr (base_url self ++ u "/jsxsd/framework/xsMain_new.jsp")) None;
                        EvLog ERROR [FText "获取学生信息时发生错误："; FExc e]] |}))
  ∧ (∀ r w1,
       session_get (PyStr (base_url self ++ u "/jsxsd/framework/xsMain_new.jsp")) None (world st)
       = (Return r, w1) ->
       status_code r = 200%Z ->
       (∀ body, text r ≠ PyStr body) ->
       ∃ e, exc_class e = "TypeError"%string
            ∧ get_student_info self st
              = (Return None,
                 {| world := w1;
                    trace := trace st
                             ++ [EvGet (PyStr (base_url self ++ u "/jsxsd/framework/xsMain_new.jsp"))
                                   None;
                                 EvLog ERROR [FText "获取学生信息时发生错误："; FExc e]] |})).
Proof.
  intros [sm Hsm] Htruthy. split.
  - intros e w1 Hget He.
    run_student. rewrite Hsm. simpl. rewrite Htruthy. simpl. rewrite Hget. simpl.
    rewrite He. simpl. rewrite <- ?app_assoc. reflexivity.
  - intros r w1 Hget Hcode Hbody. apply Z.eqb_eq in Hcode.
    destruct (text r) as [|body|b] eqn:Htext; [|by destruct (Hbody body)|].
    + exists TypeError_NoneType. split; [reflexivity|].
      run_student. rewrite Hsm. simpl. rewrite Htruthy. simpl. rewrite Hget. simpl.
      rewrite Hcode. simpl. rewrite Htext. simpl. rewrite <- ?app_assoc. reflexivity.
    + exists TypeError_bytes. split; [reflexivity|].
      run_student. rewrite Hsm. simpl. rewrite Htruthy. simpl. rewrite Hget. simpl.
      rewrite Hcode. simpl. rewrite Htext. simpl. rewrite <- ?app_assoc. reflexivity.
Qed.

(** Every run of [get_student_info] makes at most one GET, to the student
    page and without the [allow_redirects] argument; it never calls the
    credential exchange, and no exception derived from [Exception] leaves it. *)
Theorem student_info_single_request self st :
  ∃ o st' evs,
    get_student_info self st = (o, st')
    ∧ trace st' = trace st ++ evs
    ∧ token_calls_of evs = []
    ∧ requests_of evs `prefix_of`
        [(PyStr (base_url self ++ u "/jsxsd/framework/xsMain_new.jsp"), None)]
    ∧ ∀ e, o = Raise e -> derives_Exception e = false.
Proof.
  destruct st as [w t].
  destruct (student_frame self w) as (o & w' & evs & Hrun & Htok & Hreq & Hexc).
  exists o, {| world := w'; trace := t ++ evs |}, evs. rewrite Hrun. done.
Qed.
End StudentInfo.

(** ** The runner *)

Section RunnerFacts.
Context {C : Collaborators}.

Lemma __init___run w t :
  __init__ {| world := w; trace := t |}
  = (Return client,
     {| world := headers_update browser_headers w;
        trace := t ++ [EvHeadersUpdate browser_headers] |}).
Proof. reflexivity. Qed.

Lemma chain_requests_follow_redirects redirect_url (reqs : list (pyval * option bool)) x :
  reqs `prefix_of` (fun url => (url, Some true)) <$> chain redirect_url ->
  x ∈ reqs -> x.2 = Some true.
Proof.
  intros [k Hk] Hx.
  assert (Hin : x ∈ (fun url => (url, Some true)) <$> chain redirect_url).
  { rewrite Hk. apply elem_of_app. by left. }
  apply list_elem_of_fmap in Hin as (url & -> & _). reflexivity.
Qed.

Lemma main_missing (environ : gmap string pystr) st :
  truthy (getenv environ "USERNAME") = false ∨ truthy (getenv environ "PASSWORD") = false ->
  main environ st
  = (Return tt,
     {| world := world st;
        trace := trace st
                 ++ [EvLog ERROR [FText "错误：请设置环境变量 USERNAME 和 PASSWORD"];
                     EvLog ERROR [FText "可以在 .env 文件中设置或直接设置环境变量"]] |}).
Proof.
  intros H. unfold main.
  assert (Hmissing : report_missing_credentials st
                     = (Return tt,
                        {| world := world st;
                           trace := trace st
                             ++ [EvLog ERROR [FText "错误：请设置环境变量 USERNAME 和 PASSWORD"];
                                 EvLog ERROR [FText "可以在 .env 文件中设置或直接设置环境变量"]] |})).
  { unfold report_missing_credentials, log_error, emit, mbind, M_bind, mret, M_ret. simpl.
    by rewrite <- app_assoc. }
  destruct (getenv environ "USERNAME") as [|username|?] eqn:Hu; [exact Hmissing| |exact Hmissing].
  destruct (getenv environ "PASSWORD") as [|password|?] eqn:Hp; [exact Hmissing| |exact Hmissing].
  destruct H as [H|H]; rewrite H; simpl; [exact Hmissing|].
  rewrite orb_true_r. exact Hmissing.
Qed.

(** Without a user name or without a password in the environment, empty
    ones included, [main] writes its two error lines and stops: no client is
    built, no credential exchange and no GET takes place. *)
Theorem main_needs_credentials (environ : gmap string pystr) st :
  truthy (getenv environ "USERNAME") = false ∨ truthy (getenv environ "PASSWORD") = false ->
  main environ st
  = (Return tt,
     {| world := world st;
        trace := trace st
                 ++ [EvLog ERROR [FText "错误：请设置环境变量 USERNAME 和 PASSWORD"];
                     EvLog ERROR [FText "可以在 .env 文件中设置或直接设置环境变量"]] |}).
Proof. apply main_missing. Qed.

(** [main] asks for the student page only after [login] has returned
    [True]: a run of [main] that makes the GET of the student page had both
    credentials in the environment, and [login], called with them on the
    fresh client, returned [True]. *)
Theorem main_fetches_student_page_after_login (environ : gmap string pystr) st :
  ∃ o st' evs,
    main environ st = (o, st')
    ∧ trace st' = trace st ++ evs
    ∧ ((PyStr student_url, None) ∈ requests_of evs ->
       ∃ username password,
         environ !! "USERNAME"%string = Some username
         ∧ environ !! "PASSWORD"%string = Some password
         ∧ (login client username password (__init__ st).2).1 = Return true).
Proof.
  destruct (decide (truthy (getenv environ "USERNAME") = false
                    ∨ truthy (getenv environ "PASSWORD") = false)) as [Hmiss|Hhave].
  { rewrite (main_missing _ _ Hmiss). eexists _, _, _. split; [reflexivity|].
    split; [reflexivity|]. simpl. intros Hin. by apply elem_of_nil in Hin. }
  unfold main, getenv in *.
  destruct (environ !! "USERNAME"%string) as [username|]; [|exfalso; apply Hhave; by left].
  destruct (environ !! "PASSWORD"%string) as [password|]; [|exfalso; apply Hhave; by right].
  destruct (truthy (PyStr username)) eqn:Hu; [|exfalso; apply Hhave; by left].
  destruct (truthy (PyStr password)) eqn:Hp; [|exfalso; apply Hhave; by right].
  cbn [negb orb]. destruct st as [w t]. unfold mbind, M_bind. rewrite __init___run. cbn [snd].
  destruct (login_summary client username password
              {| world := headers_update browser_headers w;
                 trace := t ++ [EvHeadersUpdate browser_headers] |})
    as (ol & sl & evl & Hlogin & Htrace & _ & Hreq).
  rewrite Hlogin. destruct sl as [wl tl]. simpl in Htrace. subst tl.
  assert (Hnot : (PyStr student_url, None) ∉ requests_of evl).
  { intros Hin. simpl in Hreq.
    destruct (get_token username password target_url (headers_update browser_headers w))
      as [[redirect_url|e] w0].
    - by apply (chain_requests_follow_redirects _ _ _ Hreq) in Hin.
    - rewrite Hreq in Hin. by apply elem_of_nil in Hin. }
  destruct ol as [[|]|e].
  - (* login returned True *)
    unfold log_info, emit. cbn [fst snd world trace].
    destruct (student_frame client wl) as (os & ws & evs & Hstudent & _).
    rewrite Hstudent.
    destruct os as [[info|]|e].
    + destruct (negb (bool_decide (info = ∅))); unfold mret, M_ret; cbn.
      all: eexists _, _, _; split; [reflexivity|]; cbn; rewrite <- ?app_assoc.
      all: split; [reflexivity|]; intros _; exists username, password.
      all: by rewrite Hlogin.
    + unfold mret, M_ret. eexists _, _, _. split; [reflexivity|]. cbn.
      rewrite <- ?app_assoc. split; [reflexivity|]. intros _. exists username, password.
      by rewrite Hlogin.
    + eexists _, _, _. split; [reflexivity|]. cbn.
      rewrite <- ?app_assoc. split; [reflexivity|]. intros _. exists username, password.
      by rewrite Hlogin.
  - (* login returned False *)
    unfold log_error, emit, mret, M_ret. cbn [fst snd world trace].
    eexists _, _, _. split; [reflexivity|]. cbn. rewrite <- ?app_assoc.
    split; [reflexivity|]. intros Hin. exfalso. apply Hnot.
    rewrite requests_of_app in Hin. simpl in Hin.
    rewrite requests_of_app in Hin. simpl in Hin. by rewrite app_nil_r in Hin.
  - (* login raised *)
    eexists _, _, _. split; [reflexivity|]. cbn. rewrite <- ?app_assoc.
    split; [reflexivity|]. intros Hin. exfalso. apply Hnot.
    rewrite requests_of_app in Hin. simpl in Hin. exact Hin.
Qed.
End RunnerFacts.

(** ** Concrete runs *)

#[local] Existing Instance scripted.

Example utf8_logout : u "退出" = [36864; 20986].
Proof. reflexivity. Qed.

Example run_my_desktop :
  (login client alice secret (start w_desktop)).1 = Return true.
Proof. by vm_compute. Qed.

Example run_no_marker :
  (login client alice secret (start w_miss)).1 = Return false.
Proof. by vm_compute. Qed.

(** The display name of the spec's example is found, captured by group 1,
    and stored under the key [name]. *)
Example zhang_san_classified :
  (_check_login_success client (PyStr (span_of (u "张三"))) (start idle)).1 = Return true.
Proof. by vm_compute. Qed.

Example zhang_san_captured :
  group1 <$> re_search (@unicode_decimal scripted) name_pattern (span_of (u "张三"))
  = Some (u "张三").
Proof. by vm_compute. Qed.

Example zhang_san_parsed :
  (λ info : gmap string pystr, info !! "name"%string)
    <$> match (_parse_student_info client (PyStr (span_of (u " 张三 "))) (start idle)).1 with
        | Return info => Some info
        | Raise _ => None
        end
  = Some (Some (u "张三")).
Proof. by vm_compute. Qed.

(** ** The theorems at concrete inputs *)

(** The landing page shows the desktop menu: the run is authenticated, and
    the classifier accepted the page. *)
Lemma authenticated_only_if_classified_witness :
  login client alice secret (start w_desktop)
  = (Return true, (login client alice secret (start w_desktop)).2)
  ∧ ∃ redirect_url w0 r1 r2 r3 w3,
      get_token alice secret target_url (world (start w_desktop)) = (Return redirect_url, w0)
      ∧ truthy redirect_url = true
      ∧ answered (chain redirect_url) [r1; r2; r3] w0 w3
      ∧ ∀ s, (_check_login_success client (text r3) s).1 = Return true.
Proof.
  assert (H : login client alice secret (start w_desktop)
              = (Return true, (login client alice secret (start w_desktop)).2))
    by (vm_compute; reflexivity).
  split; [exact H|].
  exact (proj1 (authenticated_only_if_classified (C:=scripted) client alice secret
                  (start w_desktop) true _ H) eq_refl).
Defined.

(** The only span of the body is the logout control. *)
Lemma logout_control_rejected_witness :
  (_check_login_success client (PyStr (span_of LOGOUT)) (start idle)).1 = Return false.
Proof.
  apply (logout_control_rejected (C:=scripted) client (span_of LOGOUT) [] []);
    vm_compute; reflexivity.
Defined.

(** A span holding one blank is accepted; an empty span is not. *)
Lemma classifier_does_not_trim_witness :
  (_check_login_success client (PyStr (span_of (u " "))) (start idle)).1 = Return true
  ∧ (_check_login_success client (PyStr (span_of [])) (start idle)).1 = Return false.
Proof.
  split.
  - apply (proj1 (classifier_does_not_trim (C:=scripted) client [] (u " ") [] (start idle)
                    eq_refl)).
    vm_compute. discriminate.
  - apply (proj2 (classifier_does_not_trim (C:=scripted) client [] [] [] (start idle)
                    eq_refl)); vm_compute; reflexivity.
Defined.

(** C3, at a span that holds one blank: the text of the span is empty
    after trimming, no other marker and no other span is present, and the
    classifier accepts the body, where [_parse_student_info] trims the same
    capture and drops it. *)
Lemma blank_span_accepted :
  strip (u " ") = []
  ∧ contains TITLE (span_of (u " ")) = false
  ∧ contains PERSONAL_CENTER (span_of (u " ")) = false
  ∧ contains MY_DESKTOP (span_of (u " ")) = false
  ∧ contains ACADEMIC_RECORD (span_of (u " ")) = false
  ∧ count_starts SPAN_OPEN (span_of (u " ")) = 1%nat
  ∧ (_check_login_success client (PyStr (span_of (u " "))) (start idle)).1 = Return true
  ∧ (_parse_student_info client (PyStr (span_of (u " "))) (start idle)).1 = Return ∅.
Proof. repeat split; vm_compute; reflexivity. Qed.

(** The credential exchange hands back [None]. *)
Lemma no_ticket_no_request_witness :
  ∃ evs,
    login client alice secret (start w_rejected)
    = (Return false, {| world := w_rejected; trace := trace (start w_rejected) ++ evs |})
    ∧ evs = [EvLog INFO [FText "正在获取认证Token..."];
             EvGetToken alice secret target_url;
             EvLog ERROR [FText "获取认证Token失败"]]
    ∧ gets_of evs = [].
Proof.
  exact (no_ticket_no_request (C:=scripted) client alice secret (start w_rejected)
           PyNone w_rejected eq_refl eq_refl).
Defined.

(** The ticket GET times out. *)
Lemma transport_failure_returns_false_witness :
  ∃ evs,
    login client alice secret (start w_timeout)
    = (Return false, {| world := spent w_timeout; trace := trace (start w_timeout) ++ evs |})
    ∧ last evs = Some (EvLog ERROR [FText "SSO登录过程中发生错误："; FExc ConnectTimeout])
    ∧ gets_of evs = take 1 (chain ticket_url).
Proof.
  apply (transport_failure_returns_false (C:=scripted) client alice secret (start w_timeout)
           ticket_url w_timeout 0 ConnectTimeout (spent w_timeout)).
  - vm_compute. eauto.
  - reflexivity.
  - reflexivity.
  - reflexivity.
  - reflexivity.
Defined.

(** C5 as stated fails: a run whose ticket GET times out and a run whose
    landing page is not recognised hand the caller the same value. *)
Lemma transport_failure_indistinguishable :
  fails_at (C:=scripted) 0 (chain ticket_url) w_timeout ConnectTimeout (spent w_timeout)
  ∧ answered (C:=scripted) (chain ticket_url)
      [ {| status_code := 200; headers := []; text := PyStr [] |};
        {| status_code := 200; headers := []; text := PyStr [] |};
        {| status_code := 200; headers := []; text := PyStr (u "<html>login</html>") |} ]
      w_miss (spent w_miss)
  ∧ (login client alice secret (start w_timeout)).1 = Return false
  ∧ (login client alice secret (start w_miss)).1 = Return false.
Proof.
  split; [reflexivity|]. split; [|split; vm_compute; reflexivity].
  simpl. eexists. split; [reflexivity|]. eexists. split; [reflexivity|].
  eexists. split; reflexivity.
Qed.

(** The landing page comes without a body. *)
Lemma classifier_exception_is_caught_witness :
  ∃ evs,
    login client alice secret (start w_no_body)
    = (Return false, {| world := spent w_no_body; trace := trace (start w_no_body) ++ evs |})
    ∧ last evs = Some (EvLog ERROR [FText "SSO登录过程中发生错误："; FExc TypeError_NoneType])
    ∧ gets_of evs = chain ticket_url.
Proof.
  apply (classifier_exception_is_caught (C:=scripted) client alice secret (start w_no_body)
           ticket_url w_no_body
           {| status_code := 200; headers := []; text := PyStr [] |}
           {| status_code := 200; headers := []; text := PyStr [] |}
           {| status_code := 200; headers := []; text := PyNone |}
           (spent w_no_body) (start idle) TypeError_NoneType).
  - vm_compute. eauto.
  - reflexivity.
  - reflexivity.
  - simpl. eexists. split; [reflexivity|]. eexists. split; [reflexivity|].
    eexists. split; reflexivity.
  - reflexivity.
Defined.

(** C6 as stated fails: the classifier raises on the landing page, and the
    exception does not reach the caller of [login]. *)
Lemma classifier_exception_does_not_escape :
  (_check_login_success client PyNone (start idle)).1 = Raise TypeError_NoneType
  ∧ answered (C:=scripted) (chain ticket_url)
      [ {| status_code := 200; headers := []; text := PyStr [] |};
        {| status_code := 200; headers := []; text := PyStr [] |};
        {| status_code := 200; headers := []; text := PyNone |} ]
      w_no_body (spent w_no_body)
  ∧ (login client alice secret (start w_no_body)).1 = Return false.
Proof.
  split; [reflexivity|]. split; [|vm_compute; reflexivity].
  simpl. eexists. split; [reflexivity|]. eexists. split; [reflexivity|].
  eexists. split; reflexivity.
Qed.

(** The ticket GET is answered with status 500 and the bootstrap GET with
    status 404. *)
Lemma chain_ignores_status_codes_witness :
  ∃ o st' evs,
    login client alice secret (start w_error_pages) = (o, st')
    ∧ trace st' = trace (start w_error_pages) ++ evs
    ∧ take 2 (gets_of evs) = [ticket_url; PyStr sso_url]
    ∧ ∀ r2 w2,
        session_get (PyStr sso_url) (Some true)
          {| token_answer := Return ticket_url;
             get_answers := [page 404 (PyStr []);
                             page 200 (PyStr (u "<li>我的桌面</li>"))] |}
        = (Return r2, w2) ->
        gets_of evs = chain ticket_url.
Proof.
  apply (chain_ignores_status_codes (C:=scripted) client alice secret (start w_error_pages)
           ticket_url w_error_pages
           {| status_code := 500; headers := []; text := PyStr [] |}).
  - vm_compute. eauto.
  - reflexivity.
  - reflexivity.
  - reflexivity.
Defined.

(** C7 as stated fails: the ticket GET is answered, the bootstrap GET raises,
    and the landing-page GET is never made. *)
Lemma no_landing_get_after_failed_bootstrap :
  session_get (Collaborators := scripted) ticket_url (Some true) w_bootstrap_down
  = (page 200 (PyStr []),
     {| token_answer := Return ticket_url; get_answers := [Raise ConnectionError] |})
  ∧ gets_of (trace (login client alice secret (start w_bootstrap_down)).2)
    = [ticket_url; PyStr sso_url].
Proof. split; vm_compute; reflexivity. Qed.

(** A fresh client, before any login. *)
Lemma login_guard_unreachable_witness :
  ∃ o st' evs,
    get_student_info client (start idle) = (o, st')
    ∧ trace st'
      = trace (start idle)
        ++ EvGet (PyStr (u "http://zhjw.qfnu.edu.cn" ++ u "/jsxsd/framework/xsMain_new.jsp")) None
        :: evs
    ∧ EvLog ERROR [FText "请先登录"] ∉ evs.
Proof.
  exact (login_guard_unreachable (C:=scripted) client (start idle)
           (__init__ (start idle)).2 (start idle) eq_refl eq_refl eq_refl).
Defined.

(** ** The further theorems at concrete inputs *)

(** A landing page handed over as bytes. *)
Lemma classifier_raises_on_non_str_witness :
  ∃ e, _check_login_success client (PyBytes (u "<html>")) (start idle) = (Raise e, start idle)
       ∧ exc_class e = "TypeError"%string ∧ derives_Exception e = true.
Proof.
  apply (classifier_raises_on_non_str (C:=scripted) client (PyBytes (u "<html>")) (start idle)).
  intros s. discriminate.
Defined.

(** A page with the personal-centre label and the desktop menu, but no
    title: the label is what is logged. *)
Lemma classifier_reports_first_literal_witness :
  _check_login_success client (PyStr (u "<a>我的桌面</a><a>个人中心</a>")) (start idle)
  = (Return true,
     {| world := idle;
        trace := [] ++ [EvLog INFO [FText "登录验证成功，匹配到："; FStr PERSONAL_CENTER]] |}).
Proof.
  apply (classifier_reports_first_literal (C:=scripted) client
           (u "<a>我的桌面</a><a>个人中心</a>") (start idle)
           [TITLE] PERSONAL_CENTER [MY_DESKTOP; ACADEMIC_RECORD]).
  - reflexivity.
  - repeat constructor.
  - vm_compute. reflexivity.
Defined.


Lemma parsed_student_id_is_digits_witness :
  u "2021001" ≠ [] ∧ Forall (fun c => @unicode_decimal scripted c = true) (u "2021001")
  ∧ ∃ pre post, student_page = pre ++ u "var userid = '" ++ u "2021001" ++ u "';" ++ post.
Proof.
  apply (parsed_student_id_is_digits (C:=scripted) client student_page (start idle)
           (<["student_id"%string := u "2021001"]> (<["name"%string := u "张三"]> ∅))).
  - vm_compute. reflexivity.
  - vm_compute. reflexivity.
Defined.

Lemma parsed_keys_witness :
  (∀ key,
     is_Some ((<["student_id"%string := u "2021001"]> (<["name"%string := u "张三"]> ∅)
               : gmap string pystr) !! key) ->
     key = "name"%string ∨ key = "student_id"%string)
  ∧ (contains SPAN_OPEN student_page = false ->
     contains (u "var userid = '") student_page = false ->
     (<["student_id"%string := u "2021001"]> (<["name"%string := u "张三"]> ∅)
       : gmap string pystr) = ∅).
Proof.
  apply (parsed_keys (C:=scripted) client student_page (start idle)).
  vm_compute. reflexivity.
Defined.

(** A blank span before the span of the name. *)
Lemma blank_first_span_hides_name_witness :
  (<["student_id"%string := u "2021001"]> ∅ : gmap string pystr) !! "name"%string = None.
Proof.
  apply (blank_first_span_hides_name (C:=scripted) client (u "hello ") (u " ")
           (span_of (u "张三") ++ u "var userid = '2021001';") (start idle)).
  - vm_compute. intros H. repeat (apply elem_of_cons in H as [H|H]; [discriminate H|]).
    by apply elem_of_nil in H.
  - vm_compute. discriminate.
  - vm_compute. reflexivity.
  - vm_compute. reflexivity.
Defined.

(** The credential exchange cannot connect. *)
Lemma token_failure_propagates_witness :
  login client alice secret (start w_exchange_down)
  = (Raise ConnectionError,
     {| world := w_exchange_down;
        trace := [] ++ [EvLog INFO [FText "正在获取认证Token..."];
                        EvGetToken alice secret target_url] |}).
Proof.
  exact (token_failure_propagates (C:=scripted) client alice secret (start w_exchange_down)
           ConnectionError w_exchange_down eq_refl).
Defined.

(** The bootstrap GET is interrupted from the keyboard. *)
Lemma login_lets_out_only_witness :
  derives_Exception KeyboardInterrupt = false
  ∨ ∃ w1, get_token alice secret target_url (world (start w_interrupted))
          = (Raise KeyboardInterrupt, w1).
Proof.
  apply (login_lets_out_only (C:=scripted) client alice secret (start w_interrupted)).
  vm_compute. reflexivity.
Defined.

(** The scripted exchange answers every password alike. *)
Lemma password_only_reaches_exchange_witness :
  ∃ o w' evs evs',
    login client alice secret (start w_desktop)
    = (o, {| world := w'; trace := trace (start w_desktop) ++ evs |})
    ∧ login client alice (u "other") (start w_desktop)
      = (o, {| world := w'; trace := trace (start w_desktop) ++ evs' |})
    ∧ log_of evs = log_of evs'
    ∧ requests_of evs = requests_of evs'.
Proof.
  exact (password_only_reaches_exchange (C:=scripted) client alice secret (u "other")
           (start w_desktop) eq_refl).
Defined.

(** Status 500 and 404 on the way, the desktop menu on the landing page. *)
Lemma login_verdict_witness :
  ∃ evs,
    login client alice secret (start w_error_pages)
    = (Return (contains TITLE (u "<li>我的桌面</li>")
               || contains PERSONAL_CENTER (u "<li>我的桌面</li>")
               || contains MY_DESKTOP (u "<li>我的桌面</li>")
               || contains ACADEMIC_RECORD (u "<li>我的桌面</li>")
               || found name_pattern (u "<li>我的桌面</li>")),
       {| world := spent w_error_pages; trace := trace (start w_error_pages) ++ evs |})
    ∧ requests_of evs = (fun url => (url, Some true)) <$> chain ticket_url.
Proof.
  apply (login_verdict (C:=scripted) client alice secret (start w_error_pages) ticket_url
           w_error_pages
           {| status_code := 500; headers := []; text := PyStr [] |}
           {| status_code := 404; headers := []; text := PyStr [] |}
           {| status_code := 200; headers := []; text := PyStr (u "<li>我的桌面</li>") |}
           (spent w_error_pages)).
  - vm_compute. eauto.
  - reflexivity.
  - reflexivity.
  - simpl. eexists. split; [reflexivity|]. eexists. split; [reflexivity|].
    eexists. split; reflexivity.
  - reflexivity.
Defined.

Lemma guard_blocks_request_witness :
  get_student_info client_without_session (start w_student)
  = (Return None,
     {| world := world (start w_student);
        trace := trace (start w_student) ++ [EvLog ERROR [FText "请先登录"]] |}).
Proof.
  apply (guard_blocks_request (C:=scripted) client_without_session (start w_student)).
  left. reflexivity.
Defined.

(** The student page answers with a redirect status. *)
Lemma student_info_needs_status_200_witness :
  get_student_info client (start w_student_moved)
  = (Return None,
     {| world := spent w_student_moved;
        trace := trace (start w_student_moved)
                 ++ [EvGet (PyStr (base_url client ++ u "/jsxsd/framework/xsMain_new.jsp")) None;
                     EvLog ERROR [FText "获取学生信息失败，状态码："; FStatus 302]] |}).
Proof.
  apply (student_info_needs_status_200 (C:=scripted) client (start w_student_moved)
           {| status_code := 302; headers := []; text := PyStr student_page |}
           (spent w_student_moved)).
  - vm_compute. eauto.
  - reflexivity.
  - reflexivity.
  - discriminate.
Defined.

Lemma student_info_parsed_witness :
  ∃ info,
    (_parse_student_info client (PyStr student_page) (start w_student)).1 = Return info
    ∧ get_student_info client (start w_student)
      = (Return (Some info),
         {| world := spent w_student;
            trace := trace (start w_student)
                     ++ [EvGet (PyStr (base_url client ++ u "/jsxsd/framework/xsMain_new.jsp"))
                           None] |}).
Proof.
  apply (student_info_parsed (C:=scripted) client (start w_student)
           {| status_code := 200; headers := []; text := PyStr student_page |}
           (spent w_student) student_page).
  - vm_compute. eauto.
  - reflexivity.
  - reflexivity.
  - reflexivity.
  - reflexivity.
Defined.

(** The student page comes without a body. *)
Lemma student_info_failures_give_None_witness :
  ∃ e, exc_class e = "TypeError"%string
       ∧ get_student_info client (start w_student_no_body)
         = (Return None,
            {| world := spent w_student_no_body;
               trace := trace (start w_student_no_body)
                        ++ [EvGet (PyStr (base_url client ++ u "/jsxsd/framework/xsMain_new.jsp"))
                              None;
                            EvLog ERROR [FText "获取学生信息时发生错误："; FExc e]] |}).
Proof.
  apply (proj2 (student_info_failures_give_None (C:=scripted) client (start w_student_no_body)
                  (ex_intro _ SessionManager_instance eq_refl) eq_refl)
           {| status_code := 200; headers := []; text := PyNone |} (spent w_student_no_body)).
  - reflexivity.
  - reflexivity.
  - intros body. discriminate.
Defined.

(** The password of the environment is empty. *)
Lemma main_needs_credentials_witness :
  main environ_empty_password (start w_desktop)
  = (Return tt,
     {| world := world (start w_desktop);
        trace := trace (start w_desktop)
                 ++ [EvLog ERROR [FText "错误：请设置环境变量 USERNAME 和 PASSWORD"];
                     EvLog ERROR [FText "可以在 .env 文件中设置或直接设置环境变量"]] |}).
Proof.
  apply (main_needs_credentials (C:=scripted) environ_empty_password (start w_desktop)).
  right. vm_compute. reflexivity.
Defined.
